(** * The causal-graph demonstration notebook of whynot

    A shallow embedding of
    [examples/causal_inference/graphical_methods.ipynb]: the user-defined
    helper functions of the Lotka-Volterra confounding experiment, the
    inspection cells and the export cell, together with models of the
    library parts the notebook calls (execution tracing, causal-graph
    construction, the run executor). *)

From Stdlib Require Import Reals Lra QArith Qreals.
From stdpp Require Import gmap strings list pretty.

Local Open Scope string_scope.
Local Open Scope list_scope.
Local Open Scope Z_scope.

(** ** The traceable numeric interface

    The notebook imports [whynot.traceable_numpy as np] in place of numpy so
    that the same user function can be run on numbers and on traced boxes.
    The operations the helper functions use are the four arithmetic
    operators, [np.exp] and Python number literals. *)

Class Traceable (A : Type) := {
  lit : Q -> A;
  add : A -> A -> A;
  sub : A -> A -> A;
  mul : A -> A -> A;
  div : A -> A -> A;
  np_exp : A -> A
}.

(** Plain numbers: Python floats read as real numbers. *)
#[export] Instance Traceable_R : Traceable R := {
  lit := Q2R;
  add := Rplus;
  sub := Rminus;
  mul := Rmult;
  div := Rdiv;
  np_exp := Rtrigo_def.exp
}.

(** ** Simulator data: states, trajectories, configuration, intervention *)

(** [wn.lotka_volterra.State(rabbits=..., foxes=...)]. *)
Record State (A : Type) := mkState { rabbits : A; foxes : A }.
Arguments mkState {A} _ _.
Arguments rabbits {A} _.
Arguments foxes {A} _.

(** [state.values()]: the field values in declaration order. *)
Definition values {A} (s : State A) : list A := [rabbits s; foxes s].

Definition state_fields : list string := ["rabbits"; "foxes"].

Definition map_state {A B} (f : A -> B) (s : State A) : State B :=
  mkState (f (rabbits s)) (f (foxes s)).

(** Modelled from the spec: the trajectory type of the simulator, which is not
    part of the notebook: an ordered sequence of states indexed
    [0..end_time], one per simulator step.  [run[t]] outside that range is
    an error. *)
Abbreviation Run A := (list (State A)).

Definition run_at {A} (run : Run A) (t : Z) : option (State A) :=
  if t <? 0 then None else run !! Z.to_nat t.

(** [wn.lotka_volterra.Config(fox_growth=0.75, delta_t=1, end_time=6)]: the
    fields the notebook sets. *)
Record Config := mkConfig { fox_growth : Q; delta_t : Q; end_time : Z }.

(** [wn.lotka_volterra.Intervention(time=3, fox_growth=0.4)]: a time and the
    parameter updates given as keyword arguments. *)
Record Intervention := mkIntervention { time : Z; updates : list (string * Q) }.

(** ** The user-defined helper functions of the notebook *)

Section Helpers.
Context {A : Type} `{Traceable A}.

(** [1. / (np.exp(r * (threshold - x)) + 1)] *)
Definition soft_threshold (x threshold : A) (r : A) : A :=
  div (lit 1) (add (np_exp (mul r (sub threshold x))) (lit 1)).

(** [0.3 + 0.4 * (1. - soft_threshold(untreated_run[intervention.time].foxes,
    threshold=7))], with the default [r=20]. *)
Definition confounded_propensity_scores
    (untreated_run : Run A) (intervention : Intervention) : option A :=
  s ← run_at untreated_run (time intervention);
  Some (add (lit (3 # 10))
            (mul (lit (4 # 10))
                 (sub (lit 1) (soft_threshold (foxes s) (lit 7) (lit 20))))).

(** [run[config.end_time].foxes] *)
Definition outcome_extractor (run : Run A) (config : Config) : option A :=
  s ← run_at run (end_time config);
  Some (foxes s).
End Helpers.

(** [np.concatenate([prev_state, curr_state])] with
    [prev_state = run[max(intervention.time - 1, 0)].values()] and
    [curr_state = run[intervention.time].values()].  The function only selects
    and concatenates, so it is generic in the element type. *)
Definition covariate_observer {A} (run : Run A) (intervention : Intervention)
    : option (list A) :=
  prev_state ← values <$> run_at run (Z.max (time intervention - 1) 0);
  curr_state ← values <$> run_at run (time intervention);
  Some (prev_state ++ curr_state).

(** ** Causal-graph nodes and execution traces *)

(** A node is a state variable at a step, a configuration parameter at a
    step, or one of the two synthetic nodes. *)
Inductive node :=
  | StateNode (var : string) (step : nat)
  | ParamNode (param : string) (step : nat)
  | Treatment
  | Outcome.

#[export] Instance node_eq_dec : EqDecision node.
Proof. solve_decision. Defined.

(** The identifier of a node in the networkx graph, as the notebook prints
    it: [rabbits_0], [PARAM:fox_growth_0], [Treatment], [Outcome]. *)
Definition node_name (n : node) : string :=
  match n with
  | StateNode v k => v +:+ "_" +:+ pretty k
  | ParamNode p k => "PARAM:" +:+ p +:+ "_" +:+ pretty k
  | Treatment => "Treatment"
  | Outcome => "Outcome"
  end.

Definition is_param (n : node) : bool :=
  match n with ParamNode _ _ => true | _ => false end.

Definition is_state (n : node) : bool :=
  match n with StateNode _ _ => true | _ => false end.

(** A traced box carries the input nodes its value was computed from. *)
Definition Deps := list node.

(** Modelled from the spec: the traced scalar of the tracing library, which
    is not part of the notebook: every arithmetic operation yields a box
    depending on the nodes of both operands, a literal depends on nothing. *)
#[export] Instance Traceable_Deps : Traceable Deps := {
  lit := fun _ => [];
  add := list_union;
  sub := list_union;
  mul := list_union;
  div := list_union;
  np_exp := fun d => d
}.

(** The trajectory handed to a traced user function: the state of step [k]
    holds the nodes of step [k]. *)
Definition named_state (k : nat) : State node :=
  mkState (StateNode "rabbits" k) (StateNode "foxes" k).

Definition named_run (last : nat) : Run node :=
  named_state <$> seq 0 (S last).

Definition traced_run (last : nat) : Run Deps :=
  map_state (fun n => [n]) <$> named_run last.

(** ** The Lotka-Volterra dependency structure *)

(** The parameter nodes of one step, in the order of the node listing. *)
Definition param_fields : list string :=
  ["rabbit_growth"; "rabbit_death"; "fox_death"; "fox_growth"].

(** Modelled from the spec: the per-step reads of the simulator, which is not
    part of the notebook.  The dynamics are fully connected in the state
    variables; the parameter reads are the ones under which the common causes
    of treatment and outcome are those of the recorded DoWhy log. *)
Definition dynamics_reads (v : string) : list string * list string :=
  if String.eqb v "rabbits" then
    (state_fields, ["rabbit_growth"; "rabbit_death"])
  else if String.eqb v "foxes" then
    (state_fields, ["fox_death"; "fox_growth"; "rabbit_death"])
  else ([], []).

Definition state_nodes (k : nat) : list node :=
  (fun v => StateNode v k) <$> state_fields.

Definition param_nodes (k : nat) : list node :=
  (fun p => ParamNode p k) <$> param_fields.

Definition step_nodes (k : nat) : list node := state_nodes k ++ param_nodes k.

(** Edges into the state nodes of step [k + 1]. *)
Definition step_edges (k : nat) : list (node * node) :=
  v ← state_fields;
  let '(vars, params) := dynamics_reads v in
  ((fun u => (StateNode u k, StateNode v (S k))) <$> vars) ++
  ((fun p => (ParamNode p k, StateNode v (S k))) <$> params).

Definition dynamics_nodes (last : nat) : list node :=
  (seq 0 last ≫= step_nodes) ++ state_nodes last.

Definition dynamics_edges (last : nat) : list (node * node) :=
  seq 0 last ≫= step_edges.

(** ** The pseudo-random generator and the initial-state sampler *)

(** The methods of the generator object the notebook and the executor call;
    each returns its draw and the advanced generator state. *)
Class RandomState (G : Type) := {
  seed_rng : Z -> G;
  randint : Z -> Z -> G -> Z * G;
  uniform : Q -> Q -> G -> R * G;
  bernoulli : R -> G -> bool * G
}.

(** [rabbits = rng.randint(10, 100)];
    [foxes = rng.uniform(0.1, 0.8) * rabbits]. *)
Definition sample_initial_states `{RandomState G} (rng : G) : State R * G :=
  let '(rabbits, rng) := randint 10 100 rng in
  let '(u, rng) := uniform (1 # 10) (8 # 10) rng in
  (mkState (IZR rabbits) (u * IZR rabbits)%R, rng).

(** ** networkx directed graphs *)

Module nx.

(** A [DiGraph] as the notebook uses it: the graph-level attribute dictionary
    [g.graph], the nodes in insertion order with their attribute
    dictionaries, and the edges. *)
Record DiGraph := mkDiGraph {
  graph : gmap string (list string);
  nodes : list (string * gmap string string);
  edges : list (string * string)
}.

Definition node_names (g : DiGraph) : list string := (nodes g).*1.

(** [graph.in_edges(n)] *)
Definition in_edges (g : DiGraph) (n : string) : list (string * string) :=
  filter (fun e => e.2 = n) (edges g).

Definition add_node (g : DiGraph) (n : string) : DiGraph :=
  if decide (n ∈ node_names g) then g
  else mkDiGraph (graph g) (nodes g ++ [(n, ∅)]) (edges g).

Definition add_edge (g : DiGraph) (e : string * string) : DiGraph :=
  let g := add_node (add_node g e.1) e.2 in
  if decide (e ∈ edges g) then g
  else mkDiGraph (graph g) (nodes g) (edges g ++ [e]).

(** [g.add_edges_from(ebunch)] *)
Definition add_edges_from (g : DiGraph) (ebunch : list (string * string))
    : DiGraph :=
  foldl add_edge g ebunch.

(** [del g.graph[key]]: a [KeyError] when the key is absent. *)
Definition del_graph_attr (g : DiGraph) (key : string) : option DiGraph :=
  _ ← graph g !! key;
  Some (mkDiGraph (delete key (graph g)) (nodes g) (edges g)).

End nx.

(** ** The experiment library *)

Module wn.

(** Modelled from the spec: the simulator collaborator, which is not part of
    the notebook: [run(config, initial_state, time_range)] with an optional
    intervention, returning the trajectory over [0..time_range]. *)
Record Simulator := mkSimulator {
  simulate : Config -> option Intervention -> State R -> Z -> Run R
}.

(** [wn.DynamicsExperiment(...)]: the bundle the notebook builds.  The three
    extractors are run both on numbers and on traced boxes. *)
Record DynamicsExperiment (G : Type) := mkExperiment {
  name : string;
  description : string;
  simulator : Simulator;
  simulator_config : Config;
  intervention : Intervention;
  state_sampler : G -> State R * G;
  propensity_scorer : forall A, Traceable A -> Run A -> Intervention -> option A;
  outcome_extractor : forall A, Traceable A -> Run A -> Config -> option A;
  covariate_builder : forall A, Run A -> Intervention -> option (list A)
}.
Arguments name {G} _.
Arguments description {G} _.
Arguments simulator {G} _.
Arguments simulator_config {G} _.
Arguments intervention {G} _.
Arguments state_sampler {G} _ _.
Arguments propensity_scorer {G} _ _ {_} _ _.
Arguments outcome_extractor {G} _ _ {_} _ _.
Arguments covariate_builder {G} _ _ _ _.

(** Modelled from the spec: the causal graph before it is turned into a
    networkx object: nodes with their [observed] flag, edges, and the
    covariate nodes in column order. *)
Record CausalGraph := mkCausalGraph {
  cg_nodes : list (node * bool);
  cg_edges : list (node * node);
  cg_covariates : list node
}.

Definition mark_observed (cov : list node) (n : node) : node * bool :=
  (n, bool_decide (n ∈ cov)).

(** Modelled from the spec: the causal graph builder, which is not part of
    the notebook.  The dynamics nodes and edges of steps [0..end_time]; a
    [Treatment] node with an in-edge from every node the propensity scorer
    reads on the untreated run over [0..intervention.time]; an [Outcome] node
    with an in-edge from every node the outcome extractor reads; the nodes
    returned by the covariate builder marked observed.  [Treatment] and
    [Outcome] are marked observed as in the recorded output of the
    observed-node listing.  An intervention time outside [0..end_time] is a
    configuration error. *)
Definition ate_graph_builder {G} (e : DynamicsExperiment G)
    : option CausalGraph :=
  let config := simulator_config e in
  let t := time (intervention e) in
  if bool_decide (0 <= t <= end_time config) then
    let last := Z.to_nat (end_time config) in
    treat ← propensity_scorer e Deps (traced_run (Z.to_nat t)) (intervention e);
    out ← outcome_extractor e Deps (traced_run last) config;
    cov ← covariate_builder e node (named_run last) (intervention e);
    Some (mkCausalGraph
            ((mark_observed cov <$> dynamics_nodes last)
               ++ [(Treatment, true); (Outcome, true)])
            (dynamics_edges last
               ++ ((fun n => (n, Treatment)) <$> treat)
               ++ ((fun n => (n, Outcome)) <$> out))
            cov)
  else None.

Definition observed_attr (o : bool) : gmap string string :=
  {[ "observed" := if o then "yes" else "no" ]}.

(** Modelled from the spec: the networkx object stored in
    [dset.causal_graph]: nodes keyed by identifier with the attribute
    [observed] in [yes]/[no], and the graph-level attribute
    [covariate_names]. *)
Definition to_networkx (g : CausalGraph) : nx.DiGraph :=
  nx.mkDiGraph
    {[ "covariate_names" := node_name <$> cg_covariates g ]}
    ((fun '(n, o) => (node_name n, observed_attr o)) <$> cg_nodes g)
    ((fun '(u, v) => (node_name u, node_name v)) <$> cg_edges g).

(** ** The run executor *)

(** Modelled from the spec: what the executor records for one sample, the
    realized trajectory and the row of the dataset. *)
Record Sample := mkSample {
  trajectory : Run R;
  sample_covariates : list R;
  sample_treatment : bool;
  sample_outcome : R;
  sample_true_effect : R
}.

(** Modelled from the spec: the dataset type, which is not part of the
    notebook: per-sample arrays aligned by sample index and the shared
    graph. *)
Record Dataset := mkDataset {
  covariates : list (list R);
  treatments : list bool;
  outcomes : list R;
  true_effects : list R;
  causal_graph : option nx.DiGraph
}.

Section Executor.
Context {G : Type} `{RandomState G}.

(** Modelled from the spec: one iteration of the run executor, which is not
    part of the notebook: draw the initial state, simulate the untreated run
    over [0..intervention.time], score it, reject a propensity outside
    [0,1], draw the treatment from the shared generator, simulate the
    treated and the control trajectory to [end_time], and read covariates and
    outcome off the realized one. *)
Definition run_sample (e : DynamicsExperiment G) (rng : G)
    : option (Sample * G) :=
  let config := simulator_config e in
  let iv := intervention e in
  let '(init, rng) := state_sampler e rng in
  let untreated_run := simulate (simulator e) config None init (time iv) in
  p ← propensity_scorer e R untreated_run iv;
  if Rle_dec 0 p then
    if Rle_dec p 1 then
      let '(treated, rng) := bernoulli p rng in
      let control_run :=
        simulate (simulator e) config None init (end_time config) in
      let treated_run :=
        simulate (simulator e) config (Some iv) init (end_time config) in
      let realized := if treated then treated_run else control_run in
      cov ← covariate_builder e R realized iv;
      y ← outcome_extractor e R realized config;
      y1 ← outcome_extractor e R treated_run config;
      y0 ← outcome_extractor e R control_run config;
      Some (mkSample realized cov treated y (y1 - y0)%R, rng)
    else None
  else None.

(** Modelled from the spec: the sample loop of the run executor, which is not
    part of the notebook: the samples are drawn one after the other from the
    one shared generator. *)
Fixpoint run_samples (e : DynamicsExperiment G) (n : nat) (rng : G)
    : option (list Sample * G) :=
  match n with
  | O => Some ([], rng)
  | S n =>
      '(s, rng) ← run_sample e rng;
      '(rest, rng) ← run_samples e n rng;
      Some (s :: rest, rng)
  end.

Definition dataset_of (samples : list Sample) (g : option nx.DiGraph)
    : Dataset :=
  mkDataset (sample_covariates <$> samples) (sample_treatment <$> samples)
            (sample_outcome <$> samples) (sample_true_effect <$> samples) g.

(** Modelled from the spec: [exp.run(num_samples, causal_graph, seed)], the
    entry point of the run executor, which is not part of the notebook: the
    generator is seeded once, the samples are drawn, and the graph is built
    when requested. *)
Definition run (e : DynamicsExperiment G) (num_samples : nat)
    (with_graph : bool) (seed : Z) : option Dataset :=
  '(samples, _) ← run_samples e num_samples (seed_rng seed);
  if with_graph then
    g ← ate_graph_builder e;
    Some (dataset_of samples (Some (to_networkx g)))
  else Some (dataset_of samples None).

End Executor.

End wn.

(** ** The notebook *)

(** [exp = wn.DynamicsExperiment(...)], for the simulator [wn.lotka_volterra]
    the notebook passes. *)
Definition exp `{RandomState G} (lotka_volterra : wn.Simulator)
    : wn.DynamicsExperiment G :=
  wn.mkExperiment G
    "lotka_volterra_confounding"
    "Determine effect of reducing rabbits needed to sustain a fox. Treament confounded by initial fox population."
    lotka_volterra
    (mkConfig (75 # 100) 1 6)
    (mkIntervention 3 [("fox_growth", 4 # 10)])
    sample_initial_states
    (@confounded_propensity_scores)
    (fun A _ => @outcome_extractor A)
    (@covariate_observer).

(** The same experiment definition with another end time and another
    intervention time. *)
Definition reschedule {G} (e : wn.DynamicsExperiment G) (end_t t : Z)
    : wn.DynamicsExperiment G :=
  wn.mkExperiment G (wn.name e) (wn.description e) (wn.simulator e)
    (mkConfig (fox_growth (wn.simulator_config e))
              (delta_t (wn.simulator_config e)) end_t)
    (mkIntervention t (updates (wn.intervention e)))
    (wn.state_sampler e)
    (@wn.propensity_scorer G e)
    (@wn.outcome_extractor G e)
    (wn.covariate_builder e).

(** Changing only the intervention's target step. *)
Definition set_intervention_time {G} (e : wn.DynamicsExperiment G) (t : Z)
    : wn.DynamicsExperiment G :=
  wn.mkExperiment G (wn.name e) (wn.description e) (wn.simulator e)
    (wn.simulator_config e)
    (mkIntervention t (updates (wn.intervention e)))
    (wn.state_sampler e)
    (@wn.propensity_scorer G e)
    (@wn.outcome_extractor G e)
    (wn.covariate_builder e).

(** [nodes = list(graph.nodes)]; [list(nodes)[:6] + nodes[-2:]] *)
Definition node_listing_cell (graph : nx.DiGraph) : list string :=
  let nodes := nx.node_names graph in
  take 6 nodes ++ drop (length nodes - 2) nodes.

(** [for node, data in graph.nodes.items(): if data["observed"] == "yes":
    print(node)]; reading a missing attribute is a [KeyError]. *)
Fixpoint observed_listing (items : list (string * gmap string string))
    : option (list string) :=
  match items with
  | [] => Some []
  | (node, data) :: items =>
      o ← data !! "observed";
      rest ← observed_listing items;
      Some (if String.eqb o "yes" then node :: rest else rest)
  end.

Definition observed_listing_cell (graph : nx.DiGraph) : option (list string) :=
  observed_listing (nx.nodes graph).

(** [graph.graph["covariate_names"] + ["Treatment", "Outcome"]]: the column
    names of the data frame. *)
Definition dataframe_columns (graph : nx.DiGraph) : option (list string) :=
  names ← nx.graph graph !! "covariate_names";
  Some (names ++ ["Treatment"; "Outcome"]).

(** The stored outputs of the inspection cells. *)
Definition recorded_node_listing : list string :=
  ["rabbits_0"; "foxes_0"; "PARAM:rabbit_growth_0"; "PARAM:rabbit_death_0";
   "PARAM:fox_death_0"; "PARAM:fox_growth_0"; "Treatment"; "Outcome"].

Definition recorded_observed_listing : list string :=
  ["rabbits_2"; "foxes_2"; "rabbits_3"; "foxes_3"; "Treatment"; "Outcome"].

Definition recorded_dataframe_columns : list string :=
  ["rabbits_2"; "foxes_2"; "rabbits_3"; "foxes_3"; "Treatment"; "Outcome"].

(** The common causes of treatment and outcome in the stored DoWhy log. *)
Definition recorded_common_causes : list string :=
  ["PARAM:fox_growth_2"; "PARAM:fox_growth_1"; "PARAM:rabbit_growth_1";
   "rabbits_2"; "PARAM:rabbit_death_0"; "foxes_3"; "PARAM:fox_death_0";
   "foxes_1"; "PARAM:rabbit_death_1"; "PARAM:fox_growth_0";
   "PARAM:fox_death_2"; "rabbits_1"; "rabbits_0"; "PARAM:rabbit_death_2";
   "foxes_2"; "PARAM:rabbit_growth_0"; "PARAM:fox_death_1"; "foxes_0"].

(** Ancestors in a directed graph, used to compare the built graph with the
    stored DoWhy log. *)
Definition parents (g : nx.DiGraph) (n : string) : list string :=
  (nx.in_edges g n).*1.

Fixpoint ancestors_from (fuel : nat) (g : nx.DiGraph) (frontier : list string)
    : list string :=
  match fuel with
  | O => []
  | S fuel =>
      let ps := remove_dups (frontier ≫= parents g) in
      ps ++ ancestors_from fuel g ps
  end.

Definition ancestors (g : nx.DiGraph) (n : string) : list string :=
  remove_dups (ancestors_from (length (nx.nodes g)) g [n]).

(** ** The kernel state of the notebook: objects, variables, files

    Python variables hold references; [copy.deepcopy] allocates a new object,
    the in-place graph operations change the object a variable refers to. *)

Definition loc := positive.

Record Kernel := mkKernel {
  heap : gmap loc nx.DiGraph;
  env : gmap string loc;
  files : gmap string nx.DiGraph
}.

(** [var = <object at l>] *)
Definition assign (var : string) (l : loc) (k : Kernel) : Kernel :=
  mkKernel (heap k) (<[var := l]> (env k)) (files k).

(** The object a variable refers to; an unbound name is a [NameError]. *)
Definition deref (var : string) (k : Kernel) : option (loc * nx.DiGraph) :=
  l ← env k !! var;
  g ← heap k !! l;
  Some (l, g).

(** An in-place operation on the object a variable refers to. *)
Definition mutate (var : string) (f : nx.DiGraph -> option nx.DiGraph)
    (k : Kernel) : option Kernel :=
  '(l, g) ← deref var k;
  g' ← f g;
  Some (mkKernel (<[l := g']> (heap k)) (env k) (files k)).

Module copy.

(** [copy.deepcopy(x)]: a fresh object with the same contents. *)
Definition deepcopy (var : string) (k : Kernel) : option (loc * Kernel) :=
  '(_, g) ← deref var k;
  let l' := fresh (dom (heap k)) in
  Some (l', mkKernel (<[l' := g]> (heap k)) (env k) (files k)).

End copy.

(** [nx.write_gml(G, path)]: the file holds the graph handed to the writer;
    the text format itself belongs to networkx. *)
Definition write_gml (var : string) (path : string) (k : Kernel)
    : option Kernel :=
  '(_, g) ← deref var k;
  Some (mkKernel (heap k) (env k) (<[path := g]> (files k))).

(** The export cell:
    [graphcopy = copy.deepcopy(graph)];
    [graphcopy.add_edges_from([("Treatment", "Outcome")])];
    [del graphcopy.graph["covariate_names"]];
    [nx.write_gml(graphcopy, "assets/lotka_volterra_graph.gml")]. *)
Definition export_cell (k : Kernel) : option Kernel :=
  '(l', k) ← copy.deepcopy "graph" k;
  let k := assign "graphcopy" l' k in
  k ← mutate "graphcopy"
        (fun g => Some (nx.add_edges_from g [("Treatment", "Outcome")])) k;
  k ← mutate "graphcopy" (fun g => nx.del_graph_attr g "covariate_names") k;
  write_gml "graphcopy" "assets/lotka_volterra_graph.gml" k.

(** [graph.graph["covariate_names"]], as the estimation cell reads it after
    the export. *)
Definition read_covariate_names (k : Kernel) : option (list string) :=
  '(_, g) ← deref "graph" k;
  nx.graph g !! "covariate_names".

(** The export cell as it would be without the deep copy
    ([graphcopy = graph]), for comparison. *)
Definition export_cell_aliased (k : Kernel) : option Kernel :=
  '(l, _) ← deref "graph" k;
  let k := assign "graphcopy" l k in
  k ← mutate "graphcopy"
        (fun g => Some (nx.add_edges_from g [("Treatment", "Outcome")])) k;
  k ← mutate "graphcopy" (fun g => nx.del_graph_attr g "covariate_names") k;
  write_gml "graphcopy" "assets/lotka_volterra_graph.gml" k.

(** [graph = dset.causal_graph]: the networkx object of the graph built for an
    experiment. *)
Definition built_graph {G} (e : wn.DynamicsExperiment G) : option nx.DiGraph :=
  wn.to_networkx <$> wn.ate_graph_builder e.

(** The [observed] attribute of a node of the graph. *)
Definition observed_of (graph : nx.DiGraph) (n : string) : option string :=
  data ← list_to_map (M := gmap string (gmap string string)) (nx.nodes graph) !! n;
  data !! "observed".

(** ** Stand-ins for the external collaborators

    A generator and a simulator on which the statements can be evaluated: a
    counter as generator state, and a simulator that keeps the initial state
    for the whole time range. *)
#[export] Instance counter_rng : RandomState Z := {
  seed_rng := fun s => s;
  randint := fun low high g => (low + g mod (high - low), g + 1);
  uniform := fun low high g => (Q2R low, g + 1);
  bernoulli := fun p g => (Z.even g, g + 1)
}.

Definition constant_simulator : wn.Simulator :=
  wn.mkSimulator (fun _ _ init last => replicate (S (Z.to_nat last)) init).

(** A small kernel in which [graph] is bound, for evaluating the export
    cell. *)
Definition example_graph : nx.DiGraph :=
  nx.mkDiGraph
    {[ "covariate_names" := ["foxes_3"] ]}
    [("foxes_3", wn.observed_attr true); ("foxes_6", wn.observed_attr false);
     ("Treatment", wn.observed_attr true); ("Outcome", wn.observed_attr true)]
    [("foxes_3", "Treatment"); ("foxes_6", "Outcome")].

Definition example_kernel : Kernel :=
  mkKernel {[ 1%positive := example_graph ]} {[ "graph" := 1%positive ]} ∅.

(** ** Vocabulary of the graph and dataset invariants *)

(** The time step of a node: [Treatment] sits at the intervention step,
    [Outcome] at the last step. *)
Definition node_step (t last : nat) (n : node) : nat :=
  match n with
  | StateNode _ k => k
  | ParamNode _ k => k
  | Treatment => t
  | Outcome => last
  end.

(** The last time step among the nodes a traced function read. *)
Definition last_step_read (reads : Deps) : nat :=
  max_list (node_step 0 0 <$> reads).

Definition state_node_upto (last : nat) (n : node) : Prop :=
  exists v k, n = StateNode v k /\ v ∈ state_fields /\ (k <= last)%nat.

Definition state_node_at (k : nat) (n : node) : Prop :=
  exists v, n = StateNode v k /\ v ∈ state_fields.

(** The nodes that render to graph identifiers without clashes. *)
Definition graph_node (n : node) : Prop :=
  match n with
  | StateNode v _ => v ∈ state_fields
  | ParamNode p _ => p ∈ param_fields
  | Treatment | Outcome => True
  end.

(** The field of a state by name, and the value a trajectory holds for a
    state node. *)
Definition state_field {A} (v : string) (s : State A) : option A :=
  if String.eqb v "rabbits" then Some (rabbits s)
  else if String.eqb v "foxes" then Some (foxes s)
  else None.

Definition node_value {A} (run : Run A) (n : node) : option A :=
  match n with
  | StateNode v k => s ← run !! k; state_field v s
  | _ => None
  end.

(** Trajectories of the simulator are indexed [0..time_range]. *)
Definition trajectory_indexed (sim : wn.Simulator) : Prop :=
  forall config iv init last,
    0 <= last -> length (wn.simulate sim config iv init last) = S (Z.to_nat last).

(** A valid experiment: the intervention time lies in [0, end_time]; the
    propensity scorer returns a value in [0,1]; the three extractors can be
    traced, the scorer on the untreated run over [0..intervention.time], the
    outcome extractor at one step of the realized run, the covariate builder
    as a selection of state values that acts on traced boxes as on
    numbers. *)
Record valid_experiment {G} (e : wn.DynamicsExperiment G) : Prop := {
  intervention_in_range :
    0 <= time (wn.intervention e) <= end_time (wn.simulator_config e);
  propensity_in_range :
    forall (run : Run R) (p : R),
      wn.propensity_scorer e R run (wn.intervention e) = Some p ->
      (0 <= p <= 1)%R;
  scorer_traced :
    exists reads,
      wn.propensity_scorer e Deps
        (traced_run (Z.to_nat (time (wn.intervention e)))) (wn.intervention e)
      = Some reads /\
      Forall (state_node_upto (Z.to_nat (time (wn.intervention e)))) reads;
  outcome_traced :
    exists reads k,
      wn.outcome_extractor e Deps
        (traced_run (Z.to_nat (end_time (wn.simulator_config e))))
        (wn.simulator_config e)
      = Some reads /\
      (k <= Z.to_nat (end_time (wn.simulator_config e)))%nat /\
      Forall (state_node_at k) reads;
  covariates_traced :
    exists cov,
      wn.covariate_builder e node
        (named_run (Z.to_nat (end_time (wn.simulator_config e))))
        (wn.intervention e)
      = Some cov /\
      Forall (state_node_upto (Z.to_nat (end_time (wn.simulator_config e)))) cov;
  covariates_natural :
    forall (A B : Type) (f : A -> B) (run : Run A),
      wn.covariate_builder e B (fmap (M := list) (map_state f) run)
        (wn.intervention e)
      = fmap (M := option) (fmap (M := list) f)
          (wn.covariate_builder e A run (wn.intervention e))
}.

(** ** The data-frame cell: numpy arrays and pandas frames *)

Module np.

(** [a.reshape(-1, 1)]: a one-dimensional array as one column. *)
Definition reshape_column {A} (a : list A) : list (list A) :=
  (fun x => [x]) <$> a.

(** Two two-dimensional arrays, given by their rows, joined along axis 1; a
    [ValueError] when the numbers of rows differ. *)
Definition hstack {A} (a b : list (list A)) : option (list (list A)) :=
  if decide (length a = length b) then Some (zip_with app a b) else None.

(** [np.concatenate(arrays, axis=1)]; a [ValueError] on an empty sequence. *)
Definition concatenate_axis1 {A} (arrays : list (list (list A)))
    : option (list (list A)) :=
  match arrays with
  | [] => None
  | a :: rest => foldl (fun acc b => acc ← acc; hstack acc b) (Some a) rest
  end.

(** A boolean array joined with float arrays is converted to floats. *)
Definition float_of_bool (b : bool) : R := if b then 1%R else 0%R.

End np.

Module pd.

(** An entry of a frame: a float, or a boolean after [astype("bool")]. *)
Inductive cell :=
  | float64 (x : R)
  | bool_ (b : bool).

Record DataFrame := mkDataFrame {
  columns : list string;
  values : list (list cell)
}.

(** [pd.DataFrame(data, columns=columns)]: a [ValueError] unless every row
    has one entry per column. *)
Definition DataFrame_of (data : list (list R)) (columns : list string)
    : option DataFrame :=
  if decide (Forall (fun row => length row = length columns) data)
  then Some (mkDataFrame columns (fmap (M := list) float64 <$> data))
  else None.

(** The position of a column label; a [KeyError] when it is absent. *)
Definition column_index (df : DataFrame) (label : string) : option nat :=
  fst <$> list_find (fun c => c = label) (columns df).

(** [df[label]] *)
Definition get_column (df : DataFrame) (label : string) : option (list cell) :=
  j ← column_index df label;
  mapM (fun row => row !! j) (values df).

(** [series.astype("bool")]: a float is true when it is not zero. *)
Definition astype_bool (c : cell) : cell :=
  match c with
  | float64 x => bool_ (if Req_dec_T x 0 then false else true)
  | bool_ b => bool_ b
  end.

(** [df[label] = series] for a series with one entry per row: an existing
    column is replaced, a new label is appended as a new column. *)
Definition set_column (df : DataFrame) (label : string) (series : list cell)
    : option DataFrame :=
  if decide (length series = length (values df)) then
    match column_index df label with
    | Some j =>
        Some (mkDataFrame (columns df)
                (zip_with (fun row c => <[j := c]> row) (values df) series))
    | None =>
        Some (mkDataFrame (columns df ++ [label])
                (zip_with (fun row c => row ++ [c]) (values df) series))
    end
  else None.

(** [df.head()]: the first five rows. *)
Definition head (df : DataFrame) : DataFrame :=
  mkDataFrame (columns df) (take 5 (values df)).

End pd.

(** The data-frame cell:
    [data = np.concatenate([dset.covariates, dset.treatments.reshape(-1, 1),
    dset.outcomes.reshape(-1, 1)], axis=1)];
    [df = pd.DataFrame(data, columns=graph.graph["covariate_names"] +
    ["Treatment", "Outcome"])];
    [df["Treatment"] = df["Treatment"].astype("bool")]. *)
Definition dataframe_cell (covariates : list (list R)) (treatments : list bool)
    (outcomes : list R) (graph : nx.DiGraph) : option pd.DataFrame :=
  data ← np.concatenate_axis1
           [covariates;
            np.reshape_column (np.float_of_bool <$> treatments);
            np.reshape_column outcomes];
  columns ← dataframe_columns graph;
  df ← pd.DataFrame_of data columns;
  treatment ← pd.get_column df "Treatment";
  pd.set_column df "Treatment" (pd.astype_bool <$> treatment).

(** ** Proof automation *)

(** Closed decidable statements are settled by evaluation. *)
Ltac by_evaluation :=
  lazymatch goal with
  | |- ?P => refine (@bool_decide_unpack P _ _); vm_compute; exact I
  end.

(** Case analysis on membership in a list given by its elements. *)
Ltac list_cases H :=
  repeat (apply elem_of_cons in H as [H|H]; [subst|]);
  try (apply elem_of_nil in H; destruct H).

(** A list of pairwise distinct constructor terms has no duplicates. *)
Ltac distinct_list :=
  repeat (apply NoDup_cons; split;
          [let Hin := fresh "Hin" in
           intros Hin;
           repeat (apply elem_of_cons in Hin as [Hin|Hin]; [discriminate Hin|]);
           by apply elem_of_nil in Hin|]);
  apply NoDup_nil_2.

(** * Properties *)

(** ** The propensity score *)

Section Propensity.
Local Open Scope R_scope.

Lemma lit_R_int (z : Z) : lit (A := R) (inject_Z z) = IZR z.
Proof. cbn. unfold Q2R. cbn. field. Qed.

Lemma lit_R_tenths (z : Z) : lit (A := R) (z # 10) = IZR z / 10.
Proof. cbn. unfold Q2R. cbn. reflexivity. Qed.

(** The soft threshold on real numbers is the logistic function. *)
Lemma soft_threshold_R (x threshold r : R) :
  soft_threshold x threshold r
  = 1 / (Rtrigo_def.exp (r * (threshold - x)) + 1).
Proof.
  unfold soft_threshold. cbn [div add mul sub np_exp Traceable_R].
  change 1%Q with (inject_Z 1). rewrite lit_R_int. reflexivity.
Qed.

Lemma soft_threshold_open_unit (x threshold r : R) :
  0 < soft_threshold x threshold r < 1.
Proof.
  rewrite soft_threshold_R.
  pose proof (exp_pos (r * (threshold - x))) as Hpos.
  set (e := Rtrigo_def.exp (r * (threshold - x))) in *.
  assert (He : 0 < e + 1) by lra.
  split.
  - apply Rdiv_lt_0_compat; lra.
  - apply (Rmult_lt_reg_r (e + 1)); [exact He|].
    unfold Rdiv. rewrite Rmult_assoc, Rinv_l by lra. lra.
Qed.

(** The value of the scorer on real numbers. *)
Lemma confounded_propensity_scores_R (untreated_run : Run R)
    (intervention : Intervention) (s : State R) :
  run_at untreated_run (time intervention) = Some s ->
  confounded_propensity_scores untreated_run intervention
  = Some (3 / 10 + 4 / 10 * (1 - 1 / (Rtrigo_def.exp (20 * (7 - foxes s)) + 1))).
Proof.
  intros Hs. unfold confounded_propensity_scores. rewrite Hs.
  cbn [mbind option_bind]. f_equal.
  rewrite soft_threshold_R.
  change 7%Q with (inject_Z 7). change 20%Q with (inject_Z 20).
  change 1%Q with (inject_Z 1). rewrite !lit_R_int, !lit_R_tenths.
  reflexivity.
Qed.

Lemma logistic_propensity_bounds (x : R) :
  3 / 10
  < 3 / 10 + 4 / 10 * (1 - 1 / (Rtrigo_def.exp (20 * (7 - x)) + 1))
  < 7 / 10.
Proof.
  pose proof (soft_threshold_open_unit x 7 20) as Hst.
  rewrite soft_threshold_R in Hst. lra.
Qed.

Lemma confounded_propensity_scores_unit (run : Run R) (iv : Intervention)
    (p : R) :
  confounded_propensity_scores run iv = Some p -> 0 <= p <= 1.
Proof.
  intros Hp. destruct (run_at run (time iv)) as [s|] eqn:Hs.
  - rewrite (confounded_propensity_scores_R _ _ _ Hs) in Hp.
    injection Hp as <-. pose proof (logistic_propensity_bounds (foxes s)). lra.
  - unfold confounded_propensity_scores in Hp. rewrite Hs in Hp. discriminate.
Qed.



End Propensity.

(** ** Trajectory indexing and the covariate observer *)

Lemma run_at_Some {A} (run : Run A) (t : Z) (s : State A) :
  run_at run t = Some s <-> 0 <= t /\ run !! Z.to_nat t = Some s.
Proof.
  unfold run_at. destruct (Z.ltb_spec t 0); split.
  - discriminate.
  - intros [? _]. lia.
  - intros ?; split; [lia | done].
  - intros [_ ?]; done.
Qed.

Lemma run_at_in_range {A} (run : Run A) (t last : Z) :
  length run = S (Z.to_nat last) -> 0 <= t <= last -> is_Some (run_at run t).
Proof.
  intros Hlen Ht. unfold run_at.
  destruct (Z.ltb_spec t 0); [lia|].
  apply lookup_lt_is_Some. lia.
Qed.

Lemma run_at_out_of_range {A} (run : Run A) (t last : Z) :
  length run = S (Z.to_nat last) -> 0 <= last -> ~ 0 <= t <= last ->
  run_at run t = None.
Proof.
  intros Hlen Hl Ht. unfold run_at.
  destruct (Z.ltb_spec t 0); [done|].
  apply lookup_ge_None. lia.
Qed.

Lemma covariate_observer_Some {A} (run : Run A) (iv : Intervention)
    (prev curr : State A) :
  run_at run (Z.max (time iv - 1) 0) = Some prev ->
  run_at run (time iv) = Some curr ->
  covariate_observer run iv = Some (values prev ++ values curr).
Proof. intros Hp Hc. unfold covariate_observer. rewrite Hp, Hc. reflexivity. Qed.

(** C10. On a trajectory indexed [0..end_time] and for an intervention time in
    [0, end_time], both indices the covariate observer uses,
    [max(intervention.time - 1, 0)] and [intervention.time], are inside the
    trajectory and the observer returns the two states concatenated; when
    [intervention.time = 0] the two states are the same step-0 state. *)
Theorem covariate_observer_in_range {A} (run : Run A) (intervention : Intervention)
    (last : Z) :
  length run = S (Z.to_nat last) ->
  0 <= time intervention <= last ->
  exists prev_state curr_state : State A,
    0 <= Z.max (time intervention - 1) 0 <= last /\
    run_at run (Z.max (time intervention - 1) 0) = Some prev_state /\
    run_at run (time intervention) = Some curr_state /\
    covariate_observer run intervention
      = Some (values prev_state ++ values curr_state) /\
    (time intervention = 0 ->
       prev_state = curr_state /\ run_at run 0 = Some curr_state).
Proof.
  intros Hlen Ht.
  assert (Hm : 0 <= Z.max (time intervention - 1) 0 <= last) by lia.
  destruct (run_at_in_range run _ last Hlen Hm) as [prev Hp].
  destruct (run_at_in_range run _ last Hlen Ht) as [curr Hc].
  exists prev, curr.
  split; [exact Hm|]. split; [exact Hp|]. split; [exact Hc|].
  split; [by apply covariate_observer_Some|].
  intros H0. rewrite H0 in Hp, Hc. change (Z.max (0 - 1) 0) with 0 in Hp.
  split; [congruence | exact Hc].
Qed.

Lemma covariate_observer_in_range_witness :
  exists prev_state curr_state : State nat,
    0 <= Z.max (0 - 1) 0 <= 1 /\
    run_at [mkState 5%nat 2%nat; mkState 6%nat 3%nat] (Z.max (0 - 1) 0)
      = Some prev_state /\
    run_at [mkState 5%nat 2%nat; mkState 6%nat 3%nat] 0 = Some curr_state /\
    covariate_observer [mkState 5%nat 2%nat; mkState 6%nat 3%nat]
                       (mkIntervention 0 [])
      = Some (values prev_state ++ values curr_state) /\
    (0 = 0 -> prev_state = curr_state /\
       run_at [mkState 5%nat 2%nat; mkState 6%nat 3%nat] 0 = Some curr_state).
Proof.
  apply (covariate_observer_in_range
           [mkState 5%nat 2%nat; mkState 6%nat 3%nat] (mkIntervention 0 []) 1).
  - reflexivity.
  - cbn. lia.
Defined.

(** ** What the traced helper functions read *)

Lemma named_run_lookup (last k : nat) :
  (k <= last)%nat -> named_run last !! k = Some (named_state k).
Proof.
  intros Hk. unfold named_run. rewrite list_lookup_fmap.
  rewrite lookup_seq_lt by lia. reflexivity.
Qed.

Lemma named_run_length (last : nat) : length (named_run last) = S last.
Proof. unfold named_run. by rewrite length_fmap, length_seq. Qed.

Lemma traced_run_lookup (last k : nat) :
  (k <= last)%nat ->
  traced_run last !! k = Some (map_state (fun n => [n]) (named_state k)).
Proof.
  intros Hk. unfold traced_run. rewrite list_lookup_fmap.
  by rewrite named_run_lookup.
Qed.

Lemma traced_run_at (last : nat) (t : Z) :
  0 <= t <= Z.of_nat last ->
  run_at (traced_run last) t
  = Some (map_state (fun n => [n]) (named_state (Z.to_nat t))).
Proof.
  intros Ht. unfold run_at. destruct (Z.ltb_spec t 0); [lia|].
  apply traced_run_lookup. lia.
Qed.

Lemma named_run_at (last : nat) (t : Z) :
  0 <= t <= Z.of_nat last ->
  run_at (named_run last) t = Some (named_state (Z.to_nat t)).
Proof.
  intros Ht. unfold run_at. destruct (Z.ltb_spec t 0); [lia|].
  apply named_run_lookup. lia.
Qed.

(** The traced propensity scorer reads the foxes node of the intervention
    step and nothing else. *)
Lemma confounded_propensity_scores_reads (last : nat) (iv : Intervention) :
  0 <= time iv <= Z.of_nat last ->
  confounded_propensity_scores (traced_run last) iv
  = Some [StateNode "foxes" (Z.to_nat (time iv))].
Proof.
  intros Ht. unfold confounded_propensity_scores.
  rewrite traced_run_at by done. reflexivity.
Qed.

(** The traced outcome extractor reads the foxes node of [end_time]. *)
Lemma outcome_extractor_reads (last : nat) (config : Config) :
  0 <= end_time config <= Z.of_nat last ->
  outcome_extractor (traced_run last) config
  = Some [StateNode "foxes" (Z.to_nat (end_time config))].
Proof.
  intros Ht. unfold outcome_extractor.
  rewrite traced_run_at by done. reflexivity.
Qed.

(** The covariate observer selects both state nodes of the step before the
    intervention and of the intervention step, in that order. *)
Lemma covariate_observer_names (last : nat) (iv : Intervention) :
  0 <= time iv <= Z.of_nat last ->
  covariate_observer (named_run last) iv
  = Some [StateNode "rabbits" (Z.to_nat (Z.max (time iv - 1) 0));
          StateNode "foxes" (Z.to_nat (Z.max (time iv - 1) 0));
          StateNode "rabbits" (Z.to_nat (time iv));
          StateNode "foxes" (Z.to_nat (time iv))].
Proof.
  intros Ht.
  rewrite (covariate_observer_Some _ _
             (named_state (Z.to_nat (Z.max (time iv - 1) 0)))
             (named_state (Z.to_nat (time iv)))).
  - reflexivity.
  - apply named_run_at. lia.
  - apply named_run_at. lia.
Qed.

(** ** The graph of the demonstration experiment *)

Section DemoGraph.
Context {G : Type} `{RandomState G} (lotka_volterra : wn.Simulator).

(** The graph built for the notebook's experiment at any end time and any
    intervention time inside the simulated range. *)
Lemma ate_graph_builder_exp (end_t t : Z) :
  0 <= t <= end_t ->
  wn.ate_graph_builder (reschedule (exp lotka_volterra) end_t t)
  = let last := Z.to_nat end_t in
    let cov := [StateNode "rabbits" (Z.to_nat (Z.max (t - 1) 0));
                StateNode "foxes" (Z.to_nat (Z.max (t - 1) 0));
                StateNode "rabbits" (Z.to_nat t);
                StateNode "foxes" (Z.to_nat t)] in
    Some (wn.mkCausalGraph
            ((wn.mark_observed cov <$> dynamics_nodes last)
               ++ [(Treatment, true); (Outcome, true)])
            (dynamics_edges last
               ++ [(StateNode "foxes" (Z.to_nat t), Treatment)]
               ++ [(StateNode "foxes" last, Outcome)])
            cov).
Proof.
  intros Ht. unfold wn.ate_graph_builder.
  cbn [wn.simulator_config wn.intervention reschedule time end_time
       wn.propensity_scorer wn.outcome_extractor wn.covariate_builder exp].
  rewrite bool_decide_eq_true_2 by done.
  rewrite confounded_propensity_scores_reads by (cbn [time]; lia).
  rewrite outcome_extractor_reads by (cbn [end_time]; lia).
  rewrite covariate_observer_names by (cbn [time]; lia).
  reflexivity.
Qed.

Lemma reschedule_exp :
  reschedule (exp lotka_volterra) 6 3 = exp lotka_volterra.
Proof. reflexivity. Qed.

(** The model reproduces the stored outputs of the inspection cells. *)
Lemma node_listing_cell_recorded :
  node_listing_cell <$> built_graph (exp lotka_volterra)
  = Some recorded_node_listing.
Proof. vm_compute. reflexivity. Qed.

Lemma dataframe_columns_recorded :
  built_graph (exp lotka_volterra) ≫= dataframe_columns
  = Some recorded_dataframe_columns.
Proof. vm_compute. reflexivity. Qed.

(** The ancestors of [Treatment] are the common causes of the stored DoWhy
    log, and each of them is an ancestor of [Outcome] as well. *)
Lemma common_causes_recorded :
  exists graph, built_graph (exp lotka_volterra) = Some graph /\
    (forall n, n ∈ ancestors graph "Treatment" <-> n ∈ recorded_common_causes) /\
    (forall n, n ∈ recorded_common_causes -> n ∈ ancestors graph "Outcome").
Proof.
  eexists. split; [vm_compute; reflexivity|]. split.
  - intros n. split; revert n; apply Forall_forall; by_evaluation.
  - apply Forall_forall. by_evaluation.
Qed.

(** C3. In the demonstration experiment the traced propensity scorer reads
    only the foxes node of step 3 and the traced outcome extractor only the
    foxes node of step 6; accordingly the in-edges of [Treatment] are exactly
    [foxes_3 -> Treatment] and those of [Outcome] exactly
    [foxes_6 -> Outcome]. *)
Theorem demo_treatment_outcome_in_edges :
  confounded_propensity_scores (traced_run 3)
    (wn.intervention (exp lotka_volterra)) = Some [StateNode "foxes" 3] /\
  outcome_extractor (traced_run 6)
    (wn.simulator_config (exp lotka_volterra)) = Some [StateNode "foxes" 6] /\
  exists graph, built_graph (exp lotka_volterra) = Some graph /\
    nx.in_edges graph "Treatment" = [("foxes_3", "Treatment")] /\
    nx.in_edges graph "Outcome" = [("foxes_6", "Outcome")].
Proof.
  split; [reflexivity|]. split; [reflexivity|].
  eexists. split; [vm_compute; reflexivity|].
  split; vm_compute; reflexivity.
Qed.

(** C1 (amended). In the demonstration experiment the nodes whose [observed]
    attribute is [yes] are exactly [rabbits_2], [foxes_2], [rabbits_3],
    [foxes_3], [Treatment] and [Outcome], in the order of the stored listing;
    every other node, in particular every parameter node, has [observed]
    equal to [no]. *)
Theorem demo_observed_nodes :
  exists graph, built_graph (exp lotka_volterra) = Some graph /\
    observed_listing_cell graph = Some recorded_observed_listing /\
    Forall (fun n => observed_of graph n =
                     Some (if bool_decide (n ∈ recorded_observed_listing)
                           then "yes" else "no"))
           (nx.node_names graph) /\
    (forall n, n ∈ nx.node_names graph -> n ∉ recorded_observed_listing ->
               observed_of graph n = Some "no") /\
    (forall p k, observed_of graph (node_name (ParamNode p k)) <> Some "yes").
Proof.
  unfold built_graph.
  rewrite <- reschedule_exp, ate_graph_builder_exp by lia.
  cbv zeta. cbn [fmap option_fmap option_map].
  set (graph := wn.to_networkx _).
  exists graph. split; [reflexivity|].
  split; [vm_compute; reflexivity|].
  assert (Hall : Forall (fun n => observed_of graph n =
                   Some (if bool_decide (n ∈ recorded_observed_listing)
                         then "yes" else "no")) (nx.node_names graph))
    by by_evaluation.
  split; [exact Hall|].
  rewrite Forall_forall in Hall. split.
  - intros n Hn Hnot. rewrite (Hall n Hn). by rewrite bool_decide_eq_false_2.
  - intros p k Hyes.
    assert (Hn : node_name (ParamNode p k) ∈ nx.node_names graph).
    { unfold observed_of in Hyes.
      destruct (list_to_map _ !! _) as [data|] eqn:Hdata; [|discriminate].
      apply elem_of_list_to_map_2 in Hdata.
      apply list_elem_of_fmap. by exists (node_name (ParamNode p k), data). }
    rewrite (Hall _ Hn) in Hyes.
    rewrite bool_decide_eq_false_2 in Hyes; [discriminate|].
    intros Hin. unfold recorded_observed_listing in Hin.
    repeat (apply elem_of_cons in Hin as [Heq|Hin]; [cbn in Heq; discriminate|]).
    by apply elem_of_nil in Hin.
Qed.

End DemoGraph.

(** C1 (as stated) fails: in the graph of the demonstration experiment the
    [Treatment] and [Outcome] nodes carry [observed = yes], as in the stored
    listing. *)
Lemma demo_observed_nodes_counterexample :
  ~ (forall graph,
       built_graph (exp (G := Z) constant_simulator) = Some graph ->
       observed_listing_cell graph
         = Some ["rabbits_2"; "foxes_2"; "rabbits_3"; "foxes_3"] /\
       observed_of graph "Treatment" = Some "no" /\
       observed_of graph "Outcome" = Some "no").
Proof.
  intros Hclaim.
  destruct (built_graph (exp (G := Z) constant_simulator)) as [graph|] eqn:Hg;
    [|vm_compute in Hg; discriminate].
  destruct (Hclaim graph eq_refl) as (_ & Htreat & _).
  vm_compute in Hg. injection Hg as <-.
  vm_compute in Htreat. discriminate.
Qed.

(** ** The export cell *)

Lemma add_node_graph (g : nx.DiGraph) (n : string) :
  nx.graph (nx.add_node g n) = nx.graph g.
Proof. unfold nx.add_node. by case_decide. Qed.

Lemma add_edge_graph (g : nx.DiGraph) (e : string * string) :
  nx.graph (nx.add_edge g e) = nx.graph g.
Proof.
  unfold nx.add_edge. case_decide; cbn; by rewrite !add_node_graph.
Qed.

Lemma add_edges_from_graph (g : nx.DiGraph) (ebunch : list (string * string)) :
  nx.graph (nx.add_edges_from g ebunch) = nx.graph g.
Proof.
  unfold nx.add_edges_from. revert g.
  induction ebunch as [|e es IH]; intros g; [done|].
  cbn. by rewrite IH, add_edge_graph.
Qed.

Lemma add_node_edges (g : nx.DiGraph) (n : string) :
  nx.edges (nx.add_node g n) = nx.edges g.
Proof. unfold nx.add_node. by case_decide. Qed.

Lemma add_edge_elem (g : nx.DiGraph) (e : string * string) :
  e ∈ nx.edges (nx.add_edge g e).
Proof.
  unfold nx.add_edge. case_decide; [done|].
  cbn. apply elem_of_app. right. apply list_elem_of_singleton. done.
Qed.

Lemma add_edge_keeps (g : nx.DiGraph) (e e' : string * string) :
  e' ∈ nx.edges g -> e' ∈ nx.edges (nx.add_edge g e).
Proof.
  intros He'. unfold nx.add_edge. case_decide; cbn.
  - by rewrite !add_node_edges.
  - rewrite !add_node_edges. apply elem_of_app. by left.
Qed.

Lemma deref_Some (var : string) (k : Kernel) (l : loc) (g : nx.DiGraph) :
  env k !! var = Some l -> heap k !! l = Some g -> deref var k = Some (l, g).
Proof. intros He Hh. unfold deref. rewrite He. cbn. rewrite Hh. reflexivity. Qed.

Lemma mutate_Some (var : string) (f : nx.DiGraph -> option nx.DiGraph)
    (k : Kernel) (l : loc) (g g' : nx.DiGraph) :
  env k !! var = Some l -> heap k !! l = Some g -> f g = Some g' ->
  mutate var f k = Some (mkKernel (<[l := g']> (heap k)) (env k) (files k)).
Proof.
  intros He Hh Hf. unfold mutate. rewrite (deref_Some _ _ _ _ He Hh).
  cbn. rewrite Hf. reflexivity.
Qed.

Lemma deepcopy_Some (var : string) (k : Kernel) (l : loc) (g : nx.DiGraph) :
  env k !! var = Some l -> heap k !! l = Some g ->
  copy.deepcopy var k
  = Some (fresh (dom (heap k)),
          mkKernel (<[fresh (dom (heap k)) := g]> (heap k)) (env k) (files k)).
Proof.
  intros He Hh. unfold copy.deepcopy. rewrite (deref_Some _ _ _ _ He Hh).
  reflexivity.
Qed.

Lemma write_gml_Some (var path : string) (k : Kernel) (l : loc)
    (g : nx.DiGraph) :
  env k !! var = Some l -> heap k !! l = Some g ->
  write_gml var path k
  = Some (mkKernel (heap k) (env k) (<[path := g]> (files k))).
Proof.
  intros He Hh. unfold write_gml. rewrite (deref_Some _ _ _ _ He Hh).
  reflexivity.
Qed.

(** C5. Run in a kernel where [graph] refers to a graph object that has a
    [covariate_names] attribute, the export cell succeeds: it allocates a new
    object for [graphcopy], adds the [Treatment -> Outcome] edge to it,
    deletes its [covariate_names] attribute and writes it to the GML file.
    Every object that existed before, the object [graph] refers to
    included, is unchanged, so [graph.graph["covariate_names"]] still reads
    the names afterwards. *)
Theorem export_cell_frame (k : Kernel) (l : loc) (graph : nx.DiGraph)
    (names : list string) :
  env k !! "graph" = Some l ->
  heap k !! l = Some graph ->
  nx.graph graph !! "covariate_names" = Some names ->
  exists (k' : Kernel) (l' : loc) (graphcopy : nx.DiGraph),
    export_cell k = Some k' /\
    heap k !! l' = None /\
    env k' = <["graphcopy" := l']> (env k) /\
    heap k' = <[l' := graphcopy]> (heap k) /\
    files k' = <["assets/lotka_volterra_graph.gml" := graphcopy]> (files k) /\
    ("Treatment", "Outcome") ∈ nx.edges graphcopy /\
    (forall e, e ∈ nx.edges graph -> e ∈ nx.edges graphcopy) /\
    nx.graph graphcopy !! "covariate_names" = None /\
    (forall l0 g0, heap k !! l0 = Some g0 -> heap k' !! l0 = Some g0) /\
    env k' !! "graph" = Some l /\
    heap k' !! l = Some graph /\
    read_covariate_names k' = Some names.
Proof.
  intros Henv Hheap Hnames.
  set (l' := fresh (dom (heap k))).
  assert (Hfresh : heap k !! l' = None).
  { apply not_elem_of_dom. apply is_fresh. }
  assert (Hne : l' <> l) by congruence.
  set (g1 := nx.add_edges_from graph [("Treatment", "Outcome")]).
  set (graphcopy :=
         nx.mkDiGraph (delete "covariate_names" (nx.graph graph))
                      (nx.nodes g1) (nx.edges g1)).
  assert (Hdel : nx.del_graph_attr g1 "covariate_names" = Some graphcopy).
  { unfold nx.del_graph_attr. subst g1.
    rewrite add_edges_from_graph, Hnames. reflexivity. }
  exists (mkKernel (<[l' := graphcopy]> (heap k))
                   (<["graphcopy" := l']> (env k))
                   (<["assets/lotka_volterra_graph.gml" := graphcopy]> (files k))),
         l', graphcopy.
  split.
  { unfold export_cell.
    rewrite (deepcopy_Some _ _ _ _ Henv Hheap). fold l'. cbn [mbind option_bind].
    erewrite (mutate_Some "graphcopy" _ _ l' graph g1); cycle 1.
    { apply lookup_insert_eq. }
    { apply lookup_insert_eq. }
    { reflexivity. }
    cbn [mbind option_bind assign env heap files].
    erewrite (mutate_Some "graphcopy" _ _ l' g1 graphcopy); cycle 1.
    { apply lookup_insert_eq. }
    { apply lookup_insert_eq. }
    { exact Hdel. }
    cbn [mbind option_bind env heap files].
    erewrite (write_gml_Some "graphcopy" _ _ l' graphcopy); cycle 1.
    { apply lookup_insert_eq. }
    { apply lookup_insert_eq. }
    cbn [env heap files]. by rewrite !insert_insert_eq. }
  cbn [env heap files].
  split; [exact Hfresh|]. split; [done|]. split; [done|]. split; [done|].
  split.
  { cbn. subst g1. unfold nx.add_edges_from. cbn. apply add_edge_elem. }
  split.
  { intros e He. cbn. subst g1. unfold nx.add_edges_from. cbn.
    by apply add_edge_keeps. }
  split; [cbn; apply lookup_delete_eq|].
  split.
  { intros l0 g0 Hl0. rewrite lookup_insert_ne; [done|]. congruence. }
  split; [by rewrite lookup_insert_ne|].
  split; [by rewrite lookup_insert_ne|].
  unfold read_covariate_names, deref. cbn [env heap files].
  rewrite lookup_insert_ne by done. rewrite Henv. cbn [mbind option_bind].
  rewrite lookup_insert_ne by done. rewrite Hheap. cbn [mbind option_bind].
  exact Hnames.
Qed.

Lemma export_cell_frame_witness :
  exists (k' : Kernel) (l' : loc) (graphcopy : nx.DiGraph),
    export_cell example_kernel = Some k' /\
    heap example_kernel !! l' = None /\
    env k' = <["graphcopy" := l']> (env example_kernel) /\
    heap k' = <[l' := graphcopy]> (heap example_kernel) /\
    files k'
      = <["assets/lotka_volterra_graph.gml" := graphcopy]> (files example_kernel) /\
    ("Treatment", "Outcome") ∈ nx.edges graphcopy /\
    (forall e, e ∈ nx.edges example_graph -> e ∈ nx.edges graphcopy) /\
    nx.graph graphcopy !! "covariate_names" = None /\
    (forall l0 g0, heap example_kernel !! l0 = Some g0 -> heap k' !! l0 = Some g0) /\
    env k' !! "graph" = Some 1%positive /\
    heap k' !! 1%positive = Some example_graph /\
    read_covariate_names k' = Some ["foxes_3"].
Proof.
  apply (export_cell_frame example_kernel 1%positive example_graph ["foxes_3"]).
  - reflexivity.
  - reflexivity.
  - reflexivity.
Defined.

(** Without the deep copy the same statements would delete the attribute of
    the graph itself. *)
Lemma export_cell_aliased_loses_names :
  read_covariate_names example_kernel = Some ["foxes_3"] /\
  export_cell_aliased example_kernel ≫= read_covariate_names = None /\
  is_Some (export_cell_aliased example_kernel).
Proof.
  split; [reflexivity|]. split; [vm_compute; reflexivity|].
  vm_compute. eexists. reflexivity.
Qed.

(** ** Node identifiers *)

Lemma node_name_inj (n m : node) :
  graph_node n -> graph_node m -> node_name n = node_name m -> n = m.
Proof.
  destruct n as [v k|p k| |], m as [v' k'|p' k'| |]; cbn [graph_node];
    intros Hn Hm Heq; try reflexivity;
    unfold state_fields, param_fields in *;
    try list_cases Hn; try list_cases Hm;
    cbn [node_name String.append] in Heq;
    try discriminate Heq.
  all: repeat apply (inj (String.append _)) in Heq.
  all: apply (inj pretty) in Heq; by subst.
Qed.

Lemma state_nodes_graph_node (k : nat) (n : node) :
  n ∈ state_nodes k -> graph_node n /\ state_node_at k n.
Proof.
  unfold state_nodes. intros Hn. apply list_elem_of_fmap in Hn as (v & -> & Hv).
  split; [exact Hv|]. by exists v.
Qed.

Lemma param_nodes_graph_node (k : nat) (n : node) :
  n ∈ param_nodes k -> graph_node n /\ exists p, n = ParamNode p k.
Proof.
  unfold param_nodes. intros Hn. apply list_elem_of_fmap in Hn as (p & -> & Hp).
  split; [exact Hp|]. by exists p.
Qed.

(** ** Nodes and edges of the dynamics *)

Lemma elem_of_state_nodes (k : nat) (n : node) :
  n ∈ state_nodes k <-> n = StateNode "rabbits" k \/ n = StateNode "foxes" k.
Proof.
  unfold state_nodes, state_fields. cbn. rewrite !elem_of_cons, elem_of_nil.
  tauto.
Qed.

Lemma elem_of_step_nodes (k : nat) (n : node) :
  n ∈ step_nodes k -> graph_node n /\ node_step 0 0 n = k.
Proof.
  unfold step_nodes. rewrite elem_of_app. intros [Hn|Hn].
  - apply state_nodes_graph_node in Hn as [Hg (v & -> & _)]. done.
  - apply param_nodes_graph_node in Hn as [Hg (p & ->)]. done.
Qed.

Lemma node_step_step_nodes (k : nat) (n : node) (t last : nat) :
  n ∈ step_nodes k -> node_step t last n = k.
Proof.
  unfold step_nodes. rewrite elem_of_app. intros [Hn|Hn].
  - by apply state_nodes_graph_node in Hn as [_ (v & -> & _)].
  - by apply param_nodes_graph_node in Hn as [_ (p & ->)].
Qed.

Lemma NoDup_step_nodes (k : nat) : NoDup (step_nodes k).
Proof. unfold step_nodes. cbn. distinct_list. Qed.

Lemma NoDup_state_nodes (k : nat) : NoDup (state_nodes k).
Proof. unfold state_nodes. cbn. distinct_list. Qed.

Lemma elem_of_dynamics_nodes (last : nat) (n : node) :
  n ∈ dynamics_nodes last ->
  graph_node n /\ (is_state n || is_param n = true) /\
  (node_step 0 0 n <= last)%nat.
Proof.
  unfold dynamics_nodes. rewrite elem_of_app, list_elem_of_bind.
  intros [(k & Hn & Hk)|Hn].
  - apply elem_of_seq in Hk. pose proof Hn as Hstep.
    apply elem_of_step_nodes in Hstep as [Hg Hs]. split; [done|].
    split; [|lia].
    unfold step_nodes in Hn. apply elem_of_app in Hn as [Hn|Hn].
    + by apply state_nodes_graph_node in Hn as [_ (v & -> & _)].
    + by apply param_nodes_graph_node in Hn as [_ (p & ->)].
  - apply state_nodes_graph_node in Hn as [Hg (v & -> & _)]. cbn. done.
Qed.

Lemma NoDup_dynamics_nodes (last : nat) : NoDup (dynamics_nodes last).
Proof.
  unfold dynamics_nodes. apply NoDup_app. split; [|split].
  - apply NoDup_bind; [|intros; apply NoDup_step_nodes|apply NoDup_seq].
    intros k1 k2 n _ _ H1 H2.
    apply elem_of_step_nodes in H1 as [_ H1].
    apply elem_of_step_nodes in H2 as [_ H2]. congruence.
  - intros n Hn Hs. apply list_elem_of_bind in Hn as (k & Hn & Hk).
    apply elem_of_seq in Hk. apply elem_of_step_nodes in Hn as [_ Hn].
    apply state_nodes_graph_node in Hs as [_ (v & -> & _)]. cbn in Hn. lia.
  - apply NoDup_state_nodes.
Qed.

Lemma state_node_in_dynamics (last k : nat) (v : string) :
  v ∈ state_fields -> (k <= last)%nat -> StateNode v k ∈ dynamics_nodes last.
Proof.
  intros Hv Hk. unfold dynamics_nodes. apply elem_of_app.
  destruct (decide (k = last)) as [->|Hne].
  - right. unfold state_nodes. by apply list_elem_of_fmap_2'  with v.
  - left. apply list_elem_of_bind. exists k. split.
    + unfold step_nodes. apply elem_of_app. left.
      unfold state_nodes. by apply list_elem_of_fmap_2' with v.
    + apply elem_of_seq. lia.
Qed.

Lemma param_node_in_dynamics (last k : nat) (p : string) :
  p ∈ param_fields -> (k < last)%nat -> ParamNode p k ∈ dynamics_nodes last.
Proof.
  intros Hp Hk. unfold dynamics_nodes. apply elem_of_app. left.
  apply list_elem_of_bind. exists k. split.
  - unfold step_nodes. apply elem_of_app. right.
    unfold param_nodes. by apply list_elem_of_fmap_2' with p.
  - apply elem_of_seq. lia.
Qed.

(** An edge of the dynamics leads from a node of some step [k] to a state
    node of step [k + 1]. *)
Lemma elem_of_dynamics_edges (last : nat) (u w : node) :
  (u, w) ∈ dynamics_edges last ->
  exists k, (k < last)%nat /\ u ∈ step_nodes k /\ w ∈ state_nodes (S k).
Proof.
  unfold dynamics_edges. rewrite list_elem_of_bind.
  intros (k & He & Hk). apply elem_of_seq in Hk. exists k. split; [lia|].
  unfold step_edges, state_fields in He. cbn in He.
  list_cases He; injection He as -> ->;
    (split; [unfold step_nodes; cbn; rewrite !elem_of_cons; tauto
            | apply elem_of_state_nodes; tauto]).
Qed.

(** ** Validity of the demonstration experiment *)

Lemma run_at_fmap {A B} (f : A -> B) (run : Run A) (t : Z) :
  run_at (fmap (M := list) (map_state f) run) t = map_state f <$> run_at run t.
Proof.
  unfold run_at. destruct (t <? 0); [done|]. apply list_lookup_fmap.
Qed.

(** The covariate observer acts on traced boxes as on numbers. *)
Lemma covariate_observer_natural {A B} (f : A -> B) (run : Run A)
    (iv : Intervention) :
  covariate_observer (fmap (M := list) (map_state f) run) iv
  = fmap (M := option) (fmap (M := list) f) (covariate_observer run iv).
Proof.
  unfold covariate_observer. rewrite !run_at_fmap.
  destruct (run_at run (Z.max (time iv - 1) 0)) as [prev|]; [|done].
  destruct (run_at run (time iv)) as [curr|]; done.
Qed.

Lemma rabbits_field : "rabbits" ∈ state_fields.
Proof. unfold state_fields. apply list_elem_of_here. Qed.

Lemma foxes_field : "foxes" ∈ state_fields.
Proof. unfold state_fields. apply list_elem_of_further, list_elem_of_here. Qed.

Lemma exp_valid {G} `{RandomState G} (sim : wn.Simulator) (end_t t : Z) :
  0 <= t <= end_t -> valid_experiment (reschedule (exp sim) end_t t).
Proof.
  intros Ht. split;
    cbn [wn.simulator_config wn.intervention reschedule time end_time
         wn.propensity_scorer wn.outcome_extractor wn.covariate_builder exp].
  - exact Ht.
  - intros run p. apply confounded_propensity_scores_unit.
  - eexists. split.
    + apply confounded_propensity_scores_reads. cbn [time]. lia.
    + apply Forall_singleton. exists "foxes", (Z.to_nat t).
      split; [done|]. split; [apply foxes_field|lia].
  - eexists. exists (Z.to_nat end_t). split.
    + apply outcome_extractor_reads. cbn [end_time]. lia.
    + split; [lia|]. apply Forall_singleton. exists "foxes".
      split; [done|]. apply foxes_field.
  - eexists. split.
    + apply covariate_observer_names. cbn [time]. lia.
    + cbn [time]. repeat apply Forall_cons_2; [..|apply Forall_nil_2].
      * exists "rabbits", (Z.to_nat (Z.max (t - 1) 0)).
        split; [done|]. split; [apply rabbits_field|lia].
      * exists "foxes", (Z.to_nat (Z.max (t - 1) 0)).
        split; [done|]. split; [apply foxes_field|lia].
      * exists "rabbits", (Z.to_nat t).
        split; [done|]. split; [apply rabbits_field|lia].
      * exists "foxes", (Z.to_nat t).
        split; [done|]. split; [apply foxes_field|lia].
  - intros A B f run. apply covariate_observer_natural.
Qed.

(** ** Invariants of the built graph *)

Lemma list_eq_nil_filter_none {A} (P : A -> Prop) `{!forall x, Decision (P x)}
    (l : list A) :
  (forall x, x ∈ l -> ~ P x) -> filter P l = [].
Proof.
  induction l as [|y l IH]; intros Hl; [done|].
  rewrite filter_cons_False by (apply Hl, list_elem_of_here).
  apply IH. intros x Hx. apply Hl. by apply list_elem_of_further.
Qed.

Lemma mark_observed_fst (cov : list node) (l : list node) :
  (wn.mark_observed cov <$> l).*1 = l.
Proof.
  rewrite <- list_fmap_compose. rewrite <- (list_fmap_id l) at 2.
  apply list_fmap_ext. done.
Qed.

Lemma to_networkx_node_names (g : wn.CausalGraph) :
  nx.node_names (wn.to_networkx g) = node_name <$> (wn.cg_nodes g).*1.
Proof.
  unfold nx.node_names, wn.to_networkx. cbn [nx.nodes].
  rewrite <- !list_fmap_compose. apply list_fmap_ext. by intros _ [n o] _.
Qed.

Lemma NoDup_count_one {A} `{EqDecision A} (l : list A) (x : A) :
  NoDup l -> x ∈ l -> length (filter (fun y => y = x) l) = 1%nat.
Proof.
  induction 1 as [|y l Hy Hl IH]; intros Hx.
  - by apply elem_of_nil in Hx.
  - destruct (decide (y = x)) as [->|Hne].
    + rewrite filter_cons_True by done. cbn. f_equal.
      apply length_zero_iff_nil. apply list_eq_nil_filter_none.
      intros z Hz ->. contradiction.
    + rewrite filter_cons_False by done. apply IH.
      apply elem_of_cons in Hx as [->|Hx]; [contradiction|done].
Qed.

Lemma builder_nodes_NoDup (last : nat) :
  NoDup (dynamics_nodes last ++ [Treatment; Outcome]).
Proof.
  apply NoDup_app. split; [apply NoDup_dynamics_nodes|]. split.
  - intros n Hn Hs. apply elem_of_dynamics_nodes in Hn as (_ & Hkind & _).
    list_cases Hs; discriminate Hkind.
  - distinct_list.
Qed.

Lemma builder_nodes_graph_node (last : nat) (n : node) :
  n ∈ dynamics_nodes last ++ [Treatment; Outcome] -> graph_node n.
Proof.
  rewrite elem_of_app. intros [Hn|Hn].
  - by apply elem_of_dynamics_nodes in Hn as (? & _).
  - list_cases Hn; exact I.
Qed.

Lemma state_node_upto_in_dynamics (k last : nat) (n : node) :
  (k <= last)%nat -> state_node_upto k n ->
  n ∈ dynamics_nodes last /\ (node_step 0 0 n <= k)%nat.
Proof.
  intros Hk (v & j & -> & Hv & Hj). split; [|done].
  apply state_node_in_dynamics; [done|lia].
Qed.

Lemma last_step_read_at (k : nat) (reads : Deps) (n : node) :
  Forall (state_node_at k) reads -> n ∈ reads ->
  node_step 0 0 n = k /\ last_step_read reads = k.
Proof.
  intros Hall Hn. rewrite Forall_forall in Hall. split.
  - by destruct (Hall n Hn) as (v & -> & _).
  - unfold last_step_read.
    assert (Hne : node_step 0 0 <$> reads <> []).
    { destruct reads; [by apply elem_of_nil in Hn|done]. }
    apply max_list_elem_of in Hne.
    apply list_elem_of_fmap in Hne as (m & -> & Hm).
    by destruct (Hall m Hm) as (v & -> & _).
Qed.



(** The graph stored in a dataset is the graph built for the experiment,
    whatever the seed and the number of samples. *)
Lemma run_causal_graph {G} `{RandomState G} (e : wn.DynamicsExperiment G)
    (num_samples : nat) (seed : Z) (dset : wn.Dataset) :
  wn.run e num_samples true seed = Some dset ->
  wn.causal_graph dset = built_graph e /\ is_Some (built_graph e).
Proof.
  unfold wn.run, built_graph.
  destruct (wn.run_samples e num_samples (seed_rng seed)) as [[samples rng]|];
    [|discriminate].
  cbn [mbind option_bind].
  destruct (wn.ate_graph_builder e) as [g|]; [|discriminate].
  cbn. intros [= <-]. split; [reflexivity|by eexists].
Qed.

(** In the graph as built, no edge leaves [Treatment]; the export cell adds
    the only one. *)
Lemma treatment_no_out_edges {G} (e : wn.DynamicsExperiment G)
    (g : wn.CausalGraph) (w : node) :
  valid_experiment e -> wn.ate_graph_builder e = Some g ->
  (Treatment, w) ∉ wn.cg_edges g.
Proof.
  intros [Ht _ (treat & Htreat & Htreat_nodes)
             (out & k & Hout & Hk & Hout_nodes) (cov & Hcov & _) _].
  unfold wn.ate_graph_builder. cbv zeta.
  rewrite bool_decide_eq_true_2 by done. rewrite Htreat, Hout, Hcov.
  cbn. intros [= <-]. cbn [wn.cg_edges]. rewrite !elem_of_app.
  rewrite Forall_forall in Htreat_nodes. rewrite Forall_forall in Hout_nodes.
  intros [He|[He|He]].
  - apply elem_of_dynamics_edges in He as (j & _ & Hu & _).
    apply elem_of_step_nodes in Hu as Hu'.
    unfold step_nodes in Hu. apply elem_of_app in Hu as [Hu|Hu].
    + by apply state_nodes_graph_node in Hu as [_ (v & ? & _)].
    + by apply param_nodes_graph_node in Hu as [_ (p & ?)].
  - apply list_elem_of_fmap in He as (n & [= <- _] & Hn).
    by destruct (Htreat_nodes _ Hn) as (v & j & ? & _).
  - apply list_elem_of_fmap in He as (n & [= <- _] & Hn).
    by destruct (Hout_nodes _ Hn) as (v & ? & _).
Qed.

(** ** Changing the intervention time *)

Lemma filter_into_treatment_nil (reads : Deps) :
  filter (fun ed : node * node => ed.2 <> Treatment)
         ((fun n => (n, Treatment)) <$> reads) = [].
Proof.
  apply list_eq_nil_filter_none. intros ed Hed Hne.
  apply list_elem_of_fmap in Hed as (n & -> & _). by apply Hne.
Qed.




(** ** The run executor *)

Section ExecutorProperties.
Context {G : Type} `{RandomState G}.

Lemma run_samples_length (e : wn.DynamicsExperiment G) (n : nat) (rng rng' : G)
    (samples : list wn.Sample) :
  wn.run_samples e n rng = Some (samples, rng') -> length samples = n.
Proof.
  revert rng rng' samples. induction n as [|n IH]; intros rng rng' samples.
  - cbn. by intros [= <- <-].
  - cbn [wn.run_samples].
    destruct (wn.run_sample e rng) as [[s rng1]|]; [|discriminate].
    cbn [mbind option_bind].
    destruct (wn.run_samples e n rng1) as [[rest rng2]|] eqn:Hrest;
      [|discriminate].
    cbn. intros [= <- <-]. cbn. f_equal. by eapply IH.
Qed.

(** A property of every single sample holds for all samples of a run. *)
Lemma run_samples_Forall (e : wn.DynamicsExperiment G) (P : wn.Sample -> Prop) :
  (forall rng s rng', wn.run_sample e rng = Some (s, rng') -> P s) ->
  forall n rng samples rng',
    wn.run_samples e n rng = Some (samples, rng') -> Forall P samples.
Proof.
  intros HP. induction n as [|n IH]; intros rng samples rng'.
  - cbn. intros [= <- <-]. constructor.
  - cbn [wn.run_samples].
    destruct (wn.run_sample e rng) as [[s rng1]|] eqn:Hs; [|discriminate].
    cbn [mbind option_bind].
    destruct (wn.run_samples e n rng1) as [[rest rng2]|] eqn:Hrest;
      [|discriminate].
    cbn. intros [= <- <-]. constructor; [by eapply HP|by eapply IH].
Qed.

(** What one successful iteration recorded. *)
Lemma run_sample_inv (e : wn.DynamicsExperiment G) (rng rng' : G)
    (s : wn.Sample) :
  wn.run_sample e rng = Some (s, rng') ->
  exists init iv_opt,
    wn.trajectory s
    = wn.simulate (wn.simulator e) (wn.simulator_config e) iv_opt init
        (end_time (wn.simulator_config e)) /\
    wn.covariate_builder e R (wn.trajectory s) (wn.intervention e)
    = Some (wn.sample_covariates s) /\
    wn.outcome_extractor e R (wn.trajectory s) (wn.simulator_config e)
    = Some (wn.sample_outcome s).
Proof.
  unfold wn.run_sample.
  destruct (wn.state_sampler e rng) as [init rng1].
  destruct (wn.propensity_scorer e R _ _) as [p|]; [|discriminate].
  cbn [mbind option_bind].
  destruct (Rle_dec 0 p); [|discriminate].
  destruct (Rle_dec p 1); [|discriminate].
  destruct (bernoulli p rng1) as [treated rng2].
  set (realized := if treated then _ else _).
  destruct (wn.covariate_builder e R realized _) as [cov|] eqn:Hcov;
    [|discriminate].
  cbn [mbind option_bind].
  destruct (wn.outcome_extractor e R realized _) as [y|] eqn:Hy; [|discriminate].
  cbn [mbind option_bind].
  destruct (wn.outcome_extractor e R (wn.simulate _ _ (Some _) _ _) _)
    as [y1|]; [|discriminate].
  cbn [mbind option_bind].
  destruct (wn.outcome_extractor e R (wn.simulate _ _ None _ _) _)
    as [y0|]; [|discriminate].
  cbn [mbind option_bind]. intros [= <- <-]. cbn [wn.trajectory
    wn.sample_covariates wn.sample_outcome].
  exists init, (if treated then Some (wn.intervention e) else None).
  split; [by destruct treated|]. done.
Qed.

(** A trajectory indexed [0..last] is the named trajectory with every node
    replaced by the value the trajectory holds for it. *)
Lemma node_value_named_state (run : Run R) (k : nat) (s : State R) :
  run !! k = Some s ->
  map_state (fun n => default 0%R (node_value run n)) (named_state k) = s.
Proof.
  intros Hs. unfold map_state, named_state. cbn [rabbits foxes node_value].
  rewrite Hs. destruct s. reflexivity.
Qed.

Lemma run_as_named_run (run : Run R) (last : nat) :
  length run = S last ->
  fmap (M := list) (map_state (fun n => default 0%R (node_value run n)))
       (named_run last)
  = run.
Proof.
  intros Hlen. apply list_eq. intros k. rewrite list_lookup_fmap.
  destruct (decide (k <= last)%nat) as [Hk|Hk].
  - rewrite named_run_lookup by done.
    destruct (lookup_lt_is_Some_2 run k) as [s Hs]; [lia|].
    rewrite Hs. cbn. f_equal. by apply node_value_named_state.
  - rewrite (lookup_ge_None_2 run) by lia.
    unfold named_run. rewrite list_lookup_fmap, lookup_seq_ge by lia. done.
Qed.

Lemma node_value_state_node (run : Run R) (last : nat) (n : node) :
  length run = S last -> state_node_upto last n ->
  node_value run n = Some (default 0%R (node_value run n)).
Proof.
  intros Hlen (v & k & -> & Hv & Hk). cbn [node_value].
  destruct (lookup_lt_is_Some_2 run k) as [s Hs]; [lia|]. rewrite Hs. cbn.
  unfold state_fields in Hv. list_cases Hv; reflexivity.
Qed.

(** The covariates of a trajectory indexed [0..end_time] are the values the
    trajectory holds for the covariate nodes, position by position. *)
Lemma covariates_of_trajectory (e : wn.DynamicsExperiment G) (run : Run R)
    (cov : list node) (row : list R) :
  valid_experiment e ->
  length run = S (Z.to_nat (end_time (wn.simulator_config e))) ->
  wn.covariate_builder e node
    (named_run (Z.to_nat (end_time (wn.simulator_config e))))
    (wn.intervention e) = Some cov ->
  wn.covariate_builder e R run (wn.intervention e) = Some row ->
  length row = length cov /\
  forall j n, cov !! j = Some n -> row !! j = node_value run n.
Proof.
  intros Hvalid Hlen Hcov Hrow.
  destruct Hvalid as [_ _ _ _ (cov' & Hcov' & Hnodes) Hnat].
  rewrite Hcov in Hcov'. injection Hcov' as <-.
  rewrite <- (run_as_named_run run _ Hlen) in Hrow at 1.
  rewrite Hnat, Hcov in Hrow. cbn in Hrow. injection Hrow as <-.
  split; [by rewrite length_fmap|].
  intros j n Hj. rewrite list_lookup_fmap, Hj. cbn.
  symmetry. eapply node_value_state_node; [done|].
  rewrite Forall_forall in Hnodes. apply Hnodes.
  by eapply list_elem_of_lookup_2.
Qed.

(** On a simulator with indexed trajectories every iteration on the
    demonstration experiment succeeds. *)
Lemma run_sample_exp_total (sim : wn.Simulator) (rng : G) :
  trajectory_indexed sim -> is_Some (wn.run_sample (exp sim) rng).
Proof.
  intros Hsim. unfold wn.run_sample.
  cbn [exp wn.state_sampler wn.simulator wn.simulator_config wn.intervention
       wn.propensity_scorer wn.outcome_extractor wn.covariate_builder
       time end_time].
  destruct (sample_initial_states rng) as [init rng1].
  set (config := mkConfig (75 # 100) 1 6).
  set (iv := mkIntervention 3 [("fox_growth", 4 # 10)]).
  destruct (run_at_in_range (wn.simulate sim config None init 3) 3 3)
    as [s3 Hs3]; [by apply Hsim|lia|].
  rewrite (confounded_propensity_scores_R _ iv s3 Hs3).
  cbn [mbind option_bind].
  pose proof (logistic_propensity_bounds (foxes s3)) as Hp.
  destruct (Rle_dec 0 _) as [_|Hn]; [|exfalso; apply Hn; lra].
  destruct (Rle_dec _ 1) as [_|Hn]; [|exfalso; apply Hn; lra].
  destruct (bernoulli _ rng1) as [treated rng2].
  set (treated_run := wn.simulate sim config (Some iv) init 6).
  set (control_run := wn.simulate sim config None init 6).
  assert (Hobs : forall run : Run R, length run = 7%nat ->
            is_Some (covariate_observer run iv) /\
            is_Some (outcome_extractor run config)).
  { intros run Hlen.
    destruct (run_at_in_range run 2 6) as [s2 Hs2]; [done|lia|].
    destruct (run_at_in_range run 3 6) as [s3' Hs3']; [done|lia|].
    destruct (run_at_in_range run 6 6) as [s6 Hs6]; [done|lia|].
    split.
    - rewrite (covariate_observer_Some run iv s2 s3' Hs2 Hs3'). by eexists.
    - unfold outcome_extractor. cbn [end_time config]. rewrite Hs6. by eexists. }
  assert (Ht : length treated_run = 7%nat) by (by apply Hsim).
  assert (Hc : length control_run = 7%nat) by (by apply Hsim).
  destruct (Hobs treated_run Ht) as [[cov1 Hcov1] [y1 Hy1]].
  destruct (Hobs control_run Hc) as [[cov0 Hcov0] [y0 Hy0]].
  destruct treated; rewrite ?Hcov1, ?Hcov0; cbn [mbind option_bind];
    rewrite ?Hy1, ?Hy0; cbn [mbind option_bind]; by eexists.
Qed.

Lemma run_samples_exp_total (sim : wn.Simulator) (n : nat) (rng : G) :
  trajectory_indexed sim -> is_Some (wn.run_samples (exp sim) n rng).
Proof.
  intros Hsim. revert rng. induction n as [|n IH]; intros rng; [by eexists|].
  cbn [wn.run_samples].
  destruct (run_sample_exp_total sim rng Hsim) as [[s rng1] ->].
  cbn [mbind option_bind].
  destruct (IH rng1) as [[rest rng2] ->]. by eexists.
Qed.

End ExecutorProperties.

Lemma constant_simulator_indexed : trajectory_indexed constant_simulator.
Proof. intros config iv init last Hlast. cbn. by rewrite length_replicate. Qed.



(** ** Reproducibility *)

Section Reproducibility.
Context {G : Type} `{RandomState G}.

(** Drawing [n + m] samples is drawing [n] samples and then [m] more from
    the generator state the first [n] left behind. *)
Lemma run_samples_app (e : wn.DynamicsExperiment G) (n m : nat) (rng : G) :
  wn.run_samples e (n + m) rng
  = '(first, rng1) ← wn.run_samples e n rng;
    '(second, rng2) ← wn.run_samples e m rng1;
    Some (first ++ second, rng2).
Proof.
  revert rng. induction n as [|n IH]; intros rng.
  - cbn. by destruct (wn.run_samples e m rng) as [[? ?]|].
  - cbn [Nat.add wn.run_samples].
    destruct (wn.run_sample e rng) as [[s rng1]|]; [|done].
    cbn [mbind option_bind]. rewrite IH.
    destruct (wn.run_samples e n rng1) as [[first rng2]|]; [|done].
    cbn [mbind option_bind].
    by destruct (wn.run_samples e m rng2) as [[second rng3]|].
Qed.


End Reproducibility.


(** * Further properties of the notebook's code *)

(** ** The soft threshold *)

Section SoftThreshold.
Local Open Scope R_scope.





(** ** The propensity scorer on numbers *)



End SoftThreshold.

(** ** The initial-state sampler *)



(** ** Error behaviour of the extractors *)

Lemma run_at_defined_iff {A} (run : Run A) (t last : Z) :
  length run = S (Z.to_nat last) -> 0 <= last -> 0 <= t ->
  is_Some (run_at run t) <-> t <= last.
Proof.
  intros Hlen Hlast Ht. split.
  - intros [s Hs]. apply run_at_Some in Hs as [_ Hs].
    apply lookup_lt_Some in Hs. lia.
  - intros Hle. by apply (run_at_in_range run t last).
Qed.



(** ** Names and values of the covariates *)

(** X7. On a trajectory indexed [0..last] and for an intervention time in
    [0, last], the covariate observer returns four values, and run on the
    named trajectory it returns four nodes that label them position by
    position: each value is the one the trajectory holds for the node at the
    same position. *)
Theorem covariate_observer_labels {A} (run : Run A)
    (intervention : Intervention) (last : nat) :
  length run = S last ->
  0 <= time intervention <= Z.of_nat last ->
  exists (vals : list A) (names : list node),
    covariate_observer run intervention = Some vals /\
    covariate_observer (named_run last) intervention = Some names /\
    length vals = 4%nat /\ length names = 4%nat /\
    Forall2 (fun n v => node_value run n = Some v) names vals.
Proof.
  intros Hlen Ht.
  destruct (run_at_in_range run (Z.max (time intervention - 1) 0)
              (Z.of_nat last)) as [prev Hp]; [by rewrite Nat2Z.id|lia|].
  destruct (run_at_in_range run (time intervention) (Z.of_nat last))
    as [curr Hc]; [by rewrite Nat2Z.id|lia|].
  rewrite (covariate_observer_Some run intervention prev curr Hp Hc).
  rewrite covariate_observer_names by done.
  eexists. eexists. split; [reflexivity|]. split; [reflexivity|].
  split; [reflexivity|]. split; [reflexivity|].
  apply run_at_Some in Hp as [_ Hp]. apply run_at_Some in Hc as [_ Hc].
  unfold values. repeat apply Forall2_cons_2; [..|apply Forall2_nil_2];
    cbn [node_value]; rewrite ?Hp, ?Hc; reflexivity.
Qed.

Lemma covariate_observer_labels_witness :
  exists (vals : list nat) (names : list node),
    covariate_observer [mkState 5%nat 2%nat; mkState 6%nat 3%nat]
                       (mkIntervention 1 []) = Some vals /\
    covariate_observer (named_run 1) (mkIntervention 1 []) = Some names /\
    length vals = 4%nat /\ length names = 4%nat /\
    Forall2 (fun n v =>
               node_value [mkState 5%nat 2%nat; mkState 6%nat 3%nat] n = Some v)
            names vals.
Proof.
  apply (covariate_observer_labels
           [mkState 5%nat 2%nat; mkState 6%nat 3%nat] (mkIntervention 1 []) 1).
  - reflexivity.
  - cbn. lia.
Defined.

(** ** What tracing the helper functions records *)

Lemma list_union_nil_l (d : Deps) : list_union [] d = d.
Proof. reflexivity. Qed.

Lemma list_union_nil_r (d : Deps) : list_union d [] = d.
Proof.
  unfold list_union. rewrite app_nil_r.
  induction d as [|n d IH]; [done|]. cbn. by rewrite IH.
Qed.

(** X8. Traced, the soft threshold depends on the nodes of all three of its
    arguments and on no other node. *)
Theorem soft_threshold_reads (x threshold r : Deps) (n : node) :
  n ∈ soft_threshold x threshold r <-> n ∈ x \/ n ∈ threshold \/ n ∈ r.
Proof.
  unfold soft_threshold. cbn [lit add sub mul div np_exp Traceable_Deps].
  rewrite list_union_nil_l, list_union_nil_r.
  rewrite !list_elem_of_union. tauto.
Qed.

(** X9. Traced on any trajectory of boxes, the propensity scorer returns
    exactly the dependencies of the foxes entry at the intervention time:
    the rabbits entry, every other step and the numeric constants leave no
    trace. *)
Theorem confounded_propensity_scores_trace (run : Run Deps)
    (intervention : Intervention) (s : State Deps) :
  run_at run (time intervention) = Some s ->
  confounded_propensity_scores run intervention = Some (foxes s).
Proof.
  intros Hs. unfold confounded_propensity_scores, soft_threshold. rewrite Hs.
  cbn [mbind option_bind lit add sub mul div np_exp Traceable_Deps].
  by rewrite !list_union_nil_l, !list_union_nil_r.
Qed.

Lemma confounded_propensity_scores_trace_witness :
  confounded_propensity_scores
    [mkState [StateNode "rabbits" 0] [StateNode "foxes" 0; ParamNode "fox_death" 0]]
    (mkIntervention 0 [])
  = Some [StateNode "foxes" 0; ParamNode "fox_death" 0].
Proof.
  apply (confounded_propensity_scores_trace
           [mkState [StateNode "rabbits" 0]
                    [StateNode "foxes" 0; ParamNode "fox_death" 0]]
           (mkIntervention 0 [])
           (mkState [StateNode "rabbits" 0]
                    [StateNode "foxes" 0; ParamNode "fox_death" 0])).
  reflexivity.
Defined.

(** ** The inspection cells *)

(** X10. The node-listing cell prints [min(6, n) + min(2, n)] names for a
    graph of [n] nodes: the first six and the last two.  From eight nodes on
    no node is printed twice; on a smaller, non-empty graph the two slices
    overlap and some node is printed twice. *)
Theorem node_listing_cell_shape (graph : nx.DiGraph) :
  NoDup (nx.node_names graph) ->
  length (node_listing_cell graph)
  = (6 `min` length (nx.nodes graph) + 2 `min` length (nx.nodes graph))%nat /\
  ((8 <= length (nx.nodes graph))%nat -> NoDup (node_listing_cell graph)) /\
  ((0 < length (nx.nodes graph) < 8)%nat -> ~ NoDup (node_listing_cell graph)).
Proof.
  intros Hnodup. unfold node_listing_cell.
  assert (Hlen : length (nx.node_names graph) = length (nx.nodes graph))
    by (unfold nx.node_names; apply length_fmap).
  set (names := nx.node_names graph) in *. set (n := length (nx.nodes graph)) in *.
  rewrite Hlen. split; [|split].
  - rewrite length_app, length_take, length_drop. lia.
  - intros Hn. apply (sublist_NoDup _ names); [done|].
    rewrite <- (take_drop 6 names) at 3.
    apply sublist_app; [done|].
    replace (n - 2)%nat with (6 + (n - 8))%nat by lia.
    rewrite <- drop_drop. apply sublist_drop.
  - intros Hn Hout. apply NoDup_app in Hout as (_ & Hdisj & _).
    destruct (lookup_lt_is_Some_2 names (n - 2)) as [x Hx]; [lia|].
    apply (Hdisj x).
    + apply elem_of_take. exists (n - 2)%nat. split; [done|lia].
    + apply list_elem_of_lookup. exists 0%nat.
      rewrite lookup_drop. by rewrite Nat.add_0_r.
Qed.

Lemma node_listing_cell_shape_witness :
  length (node_listing_cell example_graph) = (4 + 2)%nat /\
  ((8 <= 4)%nat -> NoDup (node_listing_cell example_graph)) /\
  ((0 < 4 < 8)%nat -> ~ NoDup (node_listing_cell example_graph)).
Proof.
  apply (node_listing_cell_shape example_graph).
  by_evaluation.
Defined.

Lemma observed_listing_Some (items : list (string * gmap string string))
    (l : list string) :
  observed_listing items = Some l ->
  Forall (fun item => is_Some (item.2 !! "observed")) items /\
  l = (filter (fun item : string * gmap string string =>
                 item.2 !! "observed" = Some "yes") items).*1.
Proof.
  revert l. induction items as [|[node data] items IH]; intros l.
  - cbn. intros [= <-]. split; [constructor|reflexivity].
  - cbn [observed_listing].
    destruct (data !! "observed") as [o|] eqn:Ho; [|discriminate].
    cbn [mbind option_bind].
    destruct (observed_listing items) as [rest|]; [|discriminate].
    cbn [mbind option_bind]. intros [= <-].
    destruct (IH rest eq_refl) as [Hall ->]. split.
    + constructor; [cbn; rewrite Ho; by eexists|done].
    + destruct (String.eqb_spec o "yes") as [->|Hne].
      * rewrite filter_cons_True by done. reflexivity.
      * rewrite filter_cons_False; [reflexivity|].
        cbn. rewrite Ho. congruence.
Qed.

Lemma observed_listing_is_Some (items : list (string * gmap string string)) :
  Forall (fun item => is_Some (item.2 !! "observed")) items ->
  is_Some (observed_listing items).
Proof.
  induction 1 as [|[node data] items [o Ho] _ [rest Hrest]]; [by eexists|].
  cbn in Ho. cbn [observed_listing]. rewrite Ho, Hrest. by eexists.
Qed.

(** X11. The observed-node listing succeeds exactly when every node carries
    an [observed] attribute (otherwise reading it raises), and it then prints
    the nodes whose attribute is [yes], in node order. *)
Theorem observed_listing_cell_spec (graph : nx.DiGraph) :
  (is_Some (observed_listing_cell graph)
     <-> Forall (fun item => is_Some (item.2 !! "observed")) (nx.nodes graph)) /\
  (forall l, observed_listing_cell graph = Some l ->
     l = (filter (fun item : string * gmap string string =>
                    item.2 !! "observed" = Some "yes") (nx.nodes graph)).*1).
Proof.
  unfold observed_listing_cell. split; [split|].
  - intros [l Hl]. by apply observed_listing_Some in Hl as [? _].
  - apply observed_listing_is_Some.
  - intros l Hl. by apply observed_listing_Some in Hl as [_ ?].
Qed.

Lemma observed_listing_missing (items rest : list (string * gmap string string))
    (node : string) :
  observed_listing (items ++ (node, ∅) :: rest) = None.
Proof.
  induction items as [|[n data] items IH]; [reflexivity|].
  cbn [app observed_listing]. rewrite IH.
  by destruct (data !! "observed").
Qed.

(** X12. Adding an edge between two nodes of the graph leaves the observed
    listing as it was; adding an edge with an endpoint that is not yet a node
    creates that node without attributes, and the observed listing then
    fails on the missing attribute. *)
Theorem observed_listing_after_add_edges (graph : nx.DiGraph) (u v : string)
    (l : list string) :
  observed_listing_cell graph = Some l ->
  (u ∈ nx.node_names graph -> v ∈ nx.node_names graph ->
     observed_listing_cell (nx.add_edges_from graph [(u, v)]) = Some l) /\
  (u ∉ nx.node_names graph \/ v ∉ nx.node_names graph ->
     observed_listing_cell (nx.add_edges_from graph [(u, v)]) = None).
Proof.
  intros Hl. unfold observed_listing_cell, nx.add_edges_from in *.
  cbn [foldl]. unfold nx.add_edge. cbn [fst snd].
  assert (Hedge : forall g : nx.DiGraph,
            nx.nodes (if decide ((u, v) ∈ nx.edges g) then g
                      else nx.mkDiGraph (nx.graph g) (nx.nodes g)
                                        (nx.edges g ++ [(u, v)]))
            = nx.nodes g) by (intros g; by case_decide).
  rewrite Hedge. split.
  - intros Hu Hv. unfold nx.add_node at 2. rewrite decide_True by done.
    unfold nx.add_node. by rewrite decide_True.
  - intros Hmiss. unfold nx.add_node at 2.
    destruct (decide (u ∈ nx.node_names graph)) as [Hu|Hu].
    + destruct Hmiss as [?|Hv]; [contradiction|].
      unfold nx.add_node. rewrite decide_False by done. cbn [nx.nodes].
      apply observed_listing_missing.
    + unfold nx.add_node. case_decide; cbn [nx.nodes].
      * apply observed_listing_missing.
      * rewrite <- app_assoc. apply observed_listing_missing.
Qed.

Lemma observed_listing_after_add_edges_witness :
  ("Treatment" ∈ nx.node_names example_graph ->
   "Outcome" ∈ nx.node_names example_graph ->
   observed_listing_cell
     (nx.add_edges_from example_graph [("Treatment", "Outcome")])
   = Some ["foxes_3"; "Treatment"; "Outcome"]) /\
  ("Treatment" ∉ nx.node_names example_graph \/
   "Outcome" ∉ nx.node_names example_graph ->
   observed_listing_cell
     (nx.add_edges_from example_graph [("Treatment", "Outcome")]) = None).
Proof.
  apply (observed_listing_after_add_edges example_graph "Treatment" "Outcome").
  vm_compute. reflexivity.
Defined.

(** ** The data-frame cell *)

Lemma astype_bool_float_of_bool (b : bool) :
  pd.astype_bool (pd.float64 (np.float_of_bool b)) = pd.bool_ b.
Proof.
  unfold pd.astype_bool, np.float_of_bool.
  destruct b; destruct (Req_dec_T _ 0) as [Heq|Hne]; try reflexivity.
  - exfalso. lra.
  - exfalso. by apply Hne.
Qed.

(** The rows of the joined array. *)
Lemma concatenate_columns_lookup (covariates : list (list R))
    (treatments : list bool) (outcomes : list R) (data : list (list R)) :
  np.concatenate_axis1
    [covariates; np.reshape_column (np.float_of_bool <$> treatments);
     np.reshape_column outcomes] = Some data ->
  length treatments = length covariates /\
  length outcomes = length covariates /\
  length data = length covariates /\
  forall i row, data !! i = Some row <->
    exists c b y, covariates !! i = Some c /\ treatments !! i = Some b /\
                  outcomes !! i = Some y /\
                  row = c ++ [np.float_of_bool b; y].
Proof.
  unfold np.concatenate_axis1. cbn [foldl mbind option_bind].
  unfold np.hstack at 2.
  case_decide as Hlen1; [|discriminate]. cbn [mbind option_bind].
  unfold np.hstack. case_decide as Hlen2; [|discriminate].
  intros [= <-].
  unfold np.reshape_column in *.
  rewrite length_zip_with, !length_fmap in Hlen2.
  rewrite !length_fmap in Hlen1.
  split; [lia|]. split; [lia|]. split.
  - rewrite !length_zip_with, !length_fmap. lia.
  - intros i row. rewrite !lookup_zip_with, !list_lookup_fmap.
    destruct (covariates !! i) as [c|]; cbn;
      [|split; [discriminate|by intros (? & ? & ? & ? & _)]].
    destruct (treatments !! i) as [b|]; cbn;
      [|split; [discriminate|by intros (? & ? & ? & _ & ? & _)]].
    destruct (outcomes !! i) as [y|]; cbn;
      [|split; [discriminate|by intros (? & ? & ? & _ & _ & ? & _)]].
    rewrite <- app_assoc. cbn. split.
    + intros [= <-]. by exists c, b, y.
    + by intros (? & ? & ? & [= <-] & [= <-] & [= <-] & ->).
Qed.

Lemma concatenate_columns_Some (covariates : list (list R))
    (treatments : list bool) (outcomes : list R) :
  length treatments = length covariates ->
  length outcomes = length covariates ->
  is_Some (np.concatenate_axis1
             [covariates; np.reshape_column (np.float_of_bool <$> treatments);
              np.reshape_column outcomes]).
Proof.
  intros Ht Ho. unfold np.concatenate_axis1. cbn [foldl mbind option_bind].
  unfold np.hstack at 2, np.reshape_column.
  rewrite decide_True by (rewrite !length_fmap; lia).
  cbn [mbind option_bind]. unfold np.hstack.
  rewrite decide_True; [by eexists|].
  rewrite length_zip_with, !length_fmap. lia.
Qed.

Lemma column_index_treatment (names : list string) (values : list (list pd.cell)) :
  "Treatment" ∉ names ->
  pd.column_index (pd.mkDataFrame (names ++ ["Treatment"; "Outcome"]) values)
                  "Treatment"
  = Some (length names).
Proof.
  intros Hnot. unfold pd.column_index. cbn [pd.columns].
  assert (Hfind : list_find (fun c : string => c = "Treatment")
                            (names ++ ["Treatment"; "Outcome"])
                  = Some (length names, "Treatment")).
  { apply list_find_Some. split; [|split; [done|]].
    - rewrite lookup_app_r by lia. by rewrite Nat.sub_diag.
    - intros j y Hj Hlt ->. apply Hnot.
      rewrite lookup_app_l in Hj by done. by eapply list_elem_of_lookup_2. }
  by rewrite Hfind.
Qed.

(** The frame the cell builds from aligned arrays. *)
Lemma dataframe_cell_aligned (covariates : list (list R))
    (treatments : list bool) (outcomes : list R) (graph : nx.DiGraph)
    (names : list string) :
  nx.graph graph !! "covariate_names" = Some names ->
  "Treatment" ∉ names ->
  length treatments = length covariates ->
  length outcomes = length covariates ->
  Forall (fun row => length row = length names) covariates ->
  exists df : pd.DataFrame,
    dataframe_cell covariates treatments outcomes graph = Some df /\
    pd.columns df = names ++ ["Treatment"; "Outcome"] /\
    length (pd.values df) = length covariates /\
    (forall i c b y,
       covariates !! i = Some c -> treatments !! i = Some b ->
       outcomes !! i = Some y ->
       pd.values df !! i
       = Some ((pd.float64 <$> c) ++ [pd.bool_ b; pd.float64 y])).
Proof.
  intros Hnames Hnot Ht Ho Hwidth.
  destruct (concatenate_columns_Some covariates treatments outcomes Ht Ho)
    as [data Hdata].
  destruct (concatenate_columns_lookup _ _ _ _ Hdata)
    as (_ & _ & Hlen & Hrows).
  set (j := length names).
  set (cols := names ++ ["Treatment"; "Outcome"]).
  assert (Hshape : Forall (fun row => length row = length cols) data).
  { apply Forall_lookup_2. intros i row Hrow.
    apply Hrows in Hrow as (c & b & y & Hc & _ & _ & ->).
    subst cols. rewrite !length_app.
    rewrite (Forall_lookup_1 _ _ _ _ Hwidth Hc). reflexivity. }
  set (floats := fmap (M := list) pd.float64 <$> data).
  set (col := (fun b => pd.float64 (np.float_of_bool b)) <$> treatments).
  assert (Hget : mapM (fun row : list pd.cell => row !! j) floats = Some col).
  { apply mapM_Some. apply Forall2_same_length_lookup_2.
    - subst floats col. rewrite !length_fmap. lia.
    - intros i row x Hrow Hx. subst floats col.
      rewrite list_lookup_fmap in Hrow. rewrite list_lookup_fmap in Hx.
      destruct (data !! i) as [r|] eqn:Hr; [|discriminate].
      destruct (treatments !! i) as [b|] eqn:Hb; [|discriminate].
      injection Hrow as <-. injection Hx as <-.
      apply Hrows in Hr as (c & b' & y & Hc & Hb' & _ & ->).
      rewrite Hb in Hb'. injection Hb' as <-.
      rewrite list_lookup_fmap, lookup_app_r;
        rewrite (Forall_lookup_1 _ _ _ _ Hwidth Hc); [|done].
      by rewrite Nat.sub_diag. }
  set (final := zip_with (fun (row : list pd.cell) c => <[j := c]> row) floats
                         (pd.astype_bool <$> col)).
  assert (Hfinal : forall i c b y,
            covariates !! i = Some c -> treatments !! i = Some b ->
            outcomes !! i = Some y ->
            final !! i = Some ((pd.float64 <$> c) ++ [pd.bool_ b; pd.float64 y])).
  { intros i c b y Hc Hb Hy. subst final floats col.
    rewrite lookup_zip_with, !list_lookup_fmap.
    assert (Hrow : data !! i = Some (c ++ [np.float_of_bool b; y]))
      by (apply Hrows; by exists c, b, y).
    rewrite Hrow, Hb. cbn. f_equal.
    pose proof (astype_bool_float_of_bool b) as Hrt. cbn in Hrt.
    rewrite Hrt, fmap_app.
    replace j with (length (pd.float64 <$> c) + 0)%nat
      by (rewrite length_fmap, (Forall_lookup_1 _ _ _ _ Hwidth Hc); subst j; lia).
    by rewrite insert_app_r. }
  exists (pd.mkDataFrame cols final).
  split; [|split; [reflexivity|split; [|exact Hfinal]]].
  - unfold dataframe_cell, dataframe_columns. rewrite Hdata, Hnames.
    cbn [mbind option_bind].
    unfold pd.DataFrame_of. rewrite decide_True by exact Hshape.
    cbn [mbind option_bind]. fold floats.
    unfold pd.get_column, pd.set_column.
    rewrite (column_index_treatment names floats Hnot). fold j.
    cbn [mbind option_bind pd.values pd.columns]. rewrite Hget.
    cbn [mbind option_bind].
    rewrite decide_True; [reflexivity|].
    subst col floats. rewrite !length_fmap. lia.
  - cbn [pd.values]. subst final floats col.
    rewrite length_zip_with, !length_fmap. lia.
Qed.

(** X13. When the three arrays have one row per sample, every covariate row
    has one entry per covariate name, and no covariate is itself named
    [Treatment], the data-frame cell succeeds: the frame has the covariate
    names followed by [Treatment] and [Outcome] as columns, row [i] holds the
    covariates, the treatment and the outcome of sample [i], and the
    [Treatment] column, converted to floats by the concatenation and back by
    [astype], holds the original booleans. *)
Theorem dataframe_cell_rows (covariates : list (list R))
    (treatments : list bool) (outcomes : list R) (graph : nx.DiGraph)
    (names : list string) :
  nx.graph graph !! "covariate_names" = Some names ->
  "Treatment" ∉ names ->
  length treatments = length covariates ->
  length outcomes = length covariates ->
  Forall (fun row => length row = length names) covariates ->
  exists df : pd.DataFrame,
    dataframe_cell covariates treatments outcomes graph = Some df /\
    pd.columns df = names ++ ["Treatment"; "Outcome"] /\
    length (pd.values df) = length covariates /\
    (forall i c b y,
       covariates !! i = Some c -> treatments !! i = Some b ->
       outcomes !! i = Some y ->
       pd.values df !! i
       = Some ((pd.float64 <$> c) ++ [pd.bool_ b; pd.float64 y])) /\
    pd.get_column df "Treatment" = Some (pd.bool_ <$> treatments).
Proof.
  intros Hnames Hnot Ht Ho Hwidth.
  destruct (dataframe_cell_aligned covariates treatments outcomes graph names
              Hnames Hnot Ht Ho Hwidth)
    as ([cols rows] & Hdf & Hcols & Hlen & Hrows).
  cbn [pd.columns pd.values] in *. subst cols.
  eexists. split; [exact Hdf|]. cbn [pd.columns pd.values].
  split; [reflexivity|]. split; [exact Hlen|]. split; [exact Hrows|].
  unfold pd.get_column. rewrite (column_index_treatment names rows Hnot).
  cbn [mbind option_bind pd.values]. apply mapM_Some.
  apply Forall2_same_length_lookup_2; [rewrite length_fmap; lia|].
  intros i row x Hrow Hx. rewrite list_lookup_fmap in Hx.
  destruct (treatments !! i) as [b|] eqn:Hb; [|discriminate].
  injection Hx as <-.
  destruct (lookup_lt_is_Some_2 covariates i) as [c Hc].
  { apply lookup_lt_Some in Hb. lia. }
  destruct (lookup_lt_is_Some_2 outcomes i) as [y Hy].
  { apply lookup_lt_Some in Hb. lia. }
  rewrite (Hrows i c b y Hc Hb Hy) in Hrow. injection Hrow as <-.
  rewrite lookup_app_r; rewrite length_fmap,
    (Forall_lookup_1 _ _ _ _ Hwidth Hc); [|lia].
  by rewrite Nat.sub_diag.
Qed.

Lemma dataframe_cell_rows_witness :
  exists df : pd.DataFrame,
    dataframe_cell [[8%R]; [9%R]] [true; false] [5%R; 6%R] example_graph
    = Some df /\
    pd.columns df = ["foxes_3"] ++ ["Treatment"; "Outcome"] /\
    length (pd.values df) = length [[8%R]; [9%R]] /\
    (forall i c b y,
       [[8%R]; [9%R]] !! i = Some c -> [true; false] !! i = Some b ->
       [5%R; 6%R] !! i = Some y ->
       pd.values df !! i
       = Some ((pd.float64 <$> c) ++ [pd.bool_ b; pd.float64 y])) /\
    pd.get_column df "Treatment" = Some (pd.bool_ <$> [true; false]).
Proof.
  apply (dataframe_cell_rows [[8%R]; [9%R]] [true; false] [5%R; 6%R]
           example_graph ["foxes_3"]).
  - reflexivity.
  - by_evaluation.
  - reflexivity.
  - reflexivity.
  - repeat constructor.
Defined.

(** X14. The data-frame cell cannot succeed on misaligned inputs: whenever
    it returns a frame, the treatment and outcome arrays have as many entries
    as there are covariate rows, the graph carries a [covariate_names]
    attribute, and every covariate row has exactly one entry per name. *)
Theorem dataframe_cell_checks (covariates : list (list R))
    (treatments : list bool) (outcomes : list R) (graph : nx.DiGraph)
    (df : pd.DataFrame) :
  dataframe_cell covariates treatments outcomes graph = Some df ->
  length treatments = length covariates /\
  length outcomes = length covariates /\
  exists names : list string,
    nx.graph graph !! "covariate_names" = Some names /\
    Forall (fun row => length row = length names) covariates.
Proof.
  unfold dataframe_cell, dataframe_columns.
  destruct (np.concatenate_axis1 _) as [data|] eqn:Hdata; [|discriminate].
  cbn [mbind option_bind].
  destruct (nx.graph graph !! "covariate_names") as [names|]; [|discriminate].
  cbn [mbind option_bind]. unfold pd.DataFrame_of.
  case_decide as Hshape; [|discriminate]. intros _.
  destruct (concatenate_columns_lookup _ _ _ _ Hdata)
    as (Ht & Ho & Hlen & Hrows).
  split; [exact Ht|]. split; [exact Ho|]. exists names. split; [reflexivity|].
  apply Forall_lookup_2. intros i c Hc.
  destruct (lookup_lt_is_Some_2 treatments i) as [b Hb].
  { apply lookup_lt_Some in Hc. lia. }
  destruct (lookup_lt_is_Some_2 outcomes i) as [y Hy].
  { apply lookup_lt_Some in Hc. lia. }
  assert (Hrow : data !! i = Some (c ++ [np.float_of_bool b; y]))
    by (apply Hrows; by exists c, b, y).
  pose proof (Forall_lookup_1 _ _ _ _ Hshape Hrow) as Hw.
  rewrite !length_app in Hw. cbn in Hw. lia.
Qed.

Lemma dataframe_cell_checks_witness :
  exists df : pd.DataFrame,
    dataframe_cell [[8%R]; [9%R]] [true; false] [5%R; 6%R] example_graph
    = Some df /\
    length [true; false] = length [[8%R]; [9%R]] /\
    length [5%R; 6%R] = length [[8%R]; [9%R]] /\
    exists names : list string,
      nx.graph example_graph !! "covariate_names" = Some names /\
      Forall (fun row => length row = length names) [[8%R]; [9%R]].
Proof.
  destruct (dataframe_cell_aligned [[8%R]; [9%R]] [true; false] [5%R; 6%R]
              example_graph ["foxes_3"]) as (df & Hdf & _).
  - reflexivity.
  - by_evaluation.
  - reflexivity.
  - reflexivity.
  - repeat constructor.
  - exists df. split; [exact Hdf|].
    exact (dataframe_cell_checks _ _ _ _ df Hdf).
Defined.

(** ** More on the export cell *)

Lemma mutate_None (var : string) (f : nx.DiGraph -> option nx.DiGraph)
    (k : Kernel) (l : loc) (g : nx.DiGraph) :
  env k !! var = Some l -> heap k !! l = Some g -> f g = None ->
  mutate var f k = None.
Proof.
  intros He Hh Hf. unfold mutate. rewrite (deref_Some _ _ _ _ He Hh).
  cbn. by rewrite Hf.
Qed.

(** The kernel the export cell leaves behind. *)
Lemma export_cell_result (k : Kernel) (l : loc) (graph : nx.DiGraph)
    (names : list string) :
  env k !! "graph" = Some l ->
  heap k !! l = Some graph ->
  nx.graph graph !! "covariate_names" = Some names ->
  let l' := fresh (dom (heap k)) in
  let g1 := nx.add_edges_from graph [("Treatment", "Outcome")] in
  let graphcopy :=
    nx.mkDiGraph (delete "covariate_names" (nx.graph graph))
                 (nx.nodes g1) (nx.edges g1) in
  export_cell k
  = Some (mkKernel (<[l' := graphcopy]> (heap k))
                   (<["graphcopy" := l']> (env k))
                   (<["assets/lotka_volterra_graph.gml" := graphcopy]> (files k))).
Proof.
  intros Henv Hheap Hnames l' g1 graphcopy.
  assert (Hdel : nx.del_graph_attr g1 "covariate_names" = Some graphcopy).
  { unfold nx.del_graph_attr. subst g1.
    rewrite add_edges_from_graph, Hnames. reflexivity. }
  unfold export_cell.
  rewrite (deepcopy_Some _ _ _ _ Henv Hheap). fold l'. cbn [mbind option_bind].
  erewrite (mutate_Some "graphcopy" _ _ l' graph g1); cycle 1.
  { apply lookup_insert_eq. }
  { apply lookup_insert_eq. }
  { reflexivity. }
  cbn [mbind option_bind assign env heap files].
  erewrite (mutate_Some "graphcopy" _ _ l' g1 graphcopy); cycle 1.
  { apply lookup_insert_eq. }
  { apply lookup_insert_eq. }
  { exact Hdel. }
  cbn [mbind option_bind env heap files].
  erewrite (write_gml_Some "graphcopy" _ _ l' graphcopy); cycle 1.
  { apply lookup_insert_eq. }
  { apply lookup_insert_eq. }
  cbn [env heap files]. by rewrite !insert_insert_eq.
Qed.

Lemma export_cell_needs_names (k : Kernel) (l : loc) (graph : nx.DiGraph) :
  env k !! "graph" = Some l ->
  heap k !! l = Some graph ->
  nx.graph graph !! "covariate_names" = None ->
  export_cell k = None.
Proof.
  intros Henv Hheap Hnames. unfold export_cell.
  rewrite (deepcopy_Some _ _ _ _ Henv Hheap). cbn [mbind option_bind].
  set (l' := fresh (dom (heap k))).
  set (g1 := nx.add_edges_from graph [("Treatment", "Outcome")]).
  erewrite (mutate_Some "graphcopy" _ _ l' graph g1); cycle 1.
  { apply lookup_insert_eq. }
  { apply lookup_insert_eq. }
  { reflexivity. }
  cbn [mbind option_bind assign env heap files].
  erewrite (mutate_None "graphcopy" _ _ l' g1); [reflexivity|..].
  - apply lookup_insert_eq.
  - apply lookup_insert_eq.
  - unfold nx.del_graph_attr. subst g1.
    by rewrite add_edges_from_graph, Hnames.
Qed.

Lemma export_cell_Some_inv (k k' : Kernel) :
  export_cell k = Some k' ->
  exists (l : loc) (graph : nx.DiGraph) (names : list string),
    env k !! "graph" = Some l /\ heap k !! l = Some graph /\
    nx.graph graph !! "covariate_names" = Some names.
Proof.
  intros Hk'.
  destruct (env k !! "graph") as [l|] eqn:Henv.
  - destruct (heap k !! l) as [graph|] eqn:Hheap.
    + exists l, graph.
      destruct (nx.graph graph !! "covariate_names") as [names|] eqn:Hn;
        [by exists names|].
      rewrite (export_cell_needs_names k l graph Henv Hheap Hn) in Hk'.
      discriminate.
    + unfold export_cell, copy.deepcopy, deref in Hk'.
      rewrite Henv in Hk'. cbn in Hk'. rewrite Hheap in Hk'. discriminate.
  - unfold export_cell, copy.deepcopy, deref in Hk'.
    rewrite Henv in Hk'. discriminate.
Qed.


(** X16. The export cell can be run again: after one run a second run
    succeeds, writes the same file contents, and leaves [graph] and every
    object of the first run as they were. *)
Theorem export_cell_again (k k1 : Kernel) :
  export_cell k = Some k1 ->
  exists k2 : Kernel,
    export_cell k1 = Some k2 /\
    files k2 = files k1 /\
    deref "graph" k2 = deref "graph" k /\
    (forall l0 g0, heap k1 !! l0 = Some g0 -> heap k2 !! l0 = Some g0).
Proof.
  intros Hk1.
  destruct (export_cell_Some_inv k k1 Hk1)
    as (l & graph & names & Henv & Hheap & Hnames).
  pose proof (export_cell_result k l graph names Henv Hheap Hnames) as Hres.
  cbv zeta in Hres. rewrite Hres in Hk1. injection Hk1 as <-.
  set (l1 := fresh (dom (heap k))) in *.
  assert (Hfresh : heap k !! l1 = None) by (apply not_elem_of_dom, is_fresh).
  assert (Hne : l1 <> l) by congruence.
  set (graphcopy := nx.mkDiGraph _ _ _).
  set (k1 := mkKernel _ _ _).
  assert (Henv1 : env k1 !! "graph" = Some l)
    by (subst k1; cbn [env]; by rewrite lookup_insert_ne).
  assert (Hheap1 : heap k1 !! l = Some graph)
    by (subst k1; cbn [heap]; by rewrite lookup_insert_ne).
  pose proof (export_cell_result k1 l graph names Henv1 Hheap1 Hnames) as Hres1.
  cbv zeta in Hres1. rewrite Hres1.
  eexists. split; [reflexivity|].
  set (l2 := fresh (dom (heap k1))).
  assert (Hfresh2 : heap k1 !! l2 = None) by (apply not_elem_of_dom, is_fresh).
  cbn [files env heap]. split; [|split].
  - subst k1. cbn [files]. fold graphcopy. by rewrite insert_insert_eq.
  - unfold deref. cbn [env heap].
    rewrite lookup_insert_ne by done. rewrite Henv1, Henv. cbn [mbind option_bind].
    rewrite lookup_insert_ne by congruence. by rewrite Hheap1, Hheap.
  - intros l0 g0 Hl0. rewrite lookup_insert_ne; [done|congruence].
Qed.

Lemma export_cell_again_witness :
  exists k1 : Kernel,
    export_cell example_kernel = Some k1 /\
    exists k2 : Kernel,
      export_cell k1 = Some k2 /\
      files k2 = files k1 /\
      deref "graph" k2 = deref "graph" example_kernel /\
      (forall l0 g0, heap k1 !! l0 = Some g0 -> heap k2 !! l0 = Some g0).
Proof.
  pose proof (export_cell_result example_kernel 1%positive example_graph
                ["foxes_3"] eq_refl eq_refl eq_refl) as Hres.
  cbv zeta in Hres.
  eexists. split; [exact Hres|].
  apply (export_cell_again example_kernel). exact Hres.
Defined.

Lemma add_node_present (g : nx.DiGraph) (n : string) :
  n ∈ nx.node_names g -> nx.add_node g n = g.
Proof. intros Hn. unfold nx.add_node. by rewrite decide_True. Qed.

Lemma in_edges_app (g : nx.DiGraph) (nodes : list (string * gmap string string))
    (attrs : gmap string (list string)) (extra : list (string * string))
    (n : string) :
  nx.in_edges (nx.mkDiGraph attrs nodes (nx.edges g ++ extra)) n
  = nx.in_edges g n ++ filter (fun e : string * string => e.2 = n) extra.
Proof. unfold nx.in_edges. cbn [nx.edges]. apply filter_app. Qed.

(** X17. When the graph already has the nodes [Treatment] and [Outcome] but
    no edge between them, the graph the export cell writes has the same
    nodes with the same attributes and the same edges plus the one edge
    [Treatment -> Outcome], appended last: the in-edges of [Outcome] gain
    that edge, the in-edges of every other node are unchanged, and the
    graph-level attributes are those of the original without
    [covariate_names], so the data-frame columns cannot be read from it. *)
Theorem export_cell_written_graph (k : Kernel) (l : loc) (graph : nx.DiGraph)
    (names : list string) :
  env k !! "graph" = Some l ->
  heap k !! l = Some graph ->
  nx.graph graph !! "covariate_names" = Some names ->
  "Treatment" ∈ nx.node_names graph ->
  "Outcome" ∈ nx.node_names graph ->
  ("Treatment", "Outcome") ∉ nx.edges graph ->
  exists (k' : Kernel) (written : nx.DiGraph),
    export_cell k = Some k' /\
    files k' !! "assets/lotka_volterra_graph.gml" = Some written /\
    nx.nodes written = nx.nodes graph /\
    nx.edges written = nx.edges graph ++ [("Treatment", "Outcome")] /\
    nx.graph written = delete "covariate_names" (nx.graph graph) /\
    nx.in_edges written "Outcome"
      = nx.in_edges graph "Outcome" ++ [("Treatment", "Outcome")] /\
    (forall n, n <> "Outcome" -> nx.in_edges written n = nx.in_edges graph n) /\
    observed_listing_cell written = observed_listing_cell graph /\
    dataframe_columns written = None.
Proof.
  intros Henv Hheap Hnames HT HO Hedge.
  pose proof (export_cell_result k l graph names Henv Hheap Hnames) as Hres.
  cbv zeta in Hres.
  assert (Hg1 : nx.add_edges_from graph [("Treatment", "Outcome")]
                = nx.mkDiGraph (nx.graph graph) (nx.nodes graph)
                    (nx.edges graph ++ [("Treatment", "Outcome")])).
  { unfold nx.add_edges_from. cbn [foldl]. unfold nx.add_edge. cbn [fst snd].
    rewrite (add_node_present graph "Treatment" HT).
    rewrite (add_node_present graph "Outcome" HO). cbv zeta.
    by rewrite decide_False. }
  rewrite Hg1 in Hres. cbn [nx.nodes nx.edges] in Hres.
  eexists. eexists. split; [exact Hres|]. cbn [files].
  split; [apply lookup_insert_eq|]. cbn [nx.nodes nx.edges nx.graph].
  split; [reflexivity|]. split; [reflexivity|]. split; [reflexivity|].
  split; [|split; [|split]].
  - rewrite in_edges_app. f_equal.
  - intros n Hn. rewrite in_edges_app.
    rewrite filter_cons_False by (cbn; congruence).
    by rewrite filter_nil, app_nil_r.
  - reflexivity.
  - unfold dataframe_columns. cbn [nx.graph]. by rewrite lookup_delete_eq.
Qed.

Lemma export_cell_written_graph_witness :
  exists (k' : Kernel) (written : nx.DiGraph),
    export_cell example_kernel = Some k' /\
    files k' !! "assets/lotka_volterra_graph.gml" = Some written /\
    nx.nodes written = nx.nodes example_graph /\
    nx.edges written = nx.edges example_graph ++ [("Treatment", "Outcome")] /\
    nx.graph written = delete "covariate_names" (nx.graph example_graph) /\
    nx.in_edges written "Outcome"
      = nx.in_edges example_graph "Outcome" ++ [("Treatment", "Outcome")] /\
    (forall n, n <> "Outcome" ->
       nx.in_edges written n = nx.in_edges example_graph n) /\
    observed_listing_cell written = observed_listing_cell example_graph /\
    dataframe_columns written = None.
Proof.
  apply (export_cell_written_graph example_kernel 1%positive example_graph
           ["foxes_3"]).
  - reflexivity.
  - reflexivity.
  - reflexivity.
  - by_evaluation.
  - by_evaluation.
  - by_evaluation.
Defined.

(** ** Covariate names at the start of the run *)

(** X18. The four covariate names are pairwise distinct exactly when the
    intervention time is at least 1.  At intervention time 0 the observer
    reads the step-0 state twice, so [rabbits_0] and [foxes_0] each appear
    twice among the names, and hence among the data-frame columns. *)
Theorem covariate_names_distinct_iff (last : nat) (intervention : Intervention) :
  0 <= time intervention <= Z.of_nat last ->
  exists names : list node,
    covariate_observer (named_run last) intervention = Some names /\
    (NoDup (node_name <$> names) <-> 1 <= time intervention) /\
    (time intervention = 0 ->
       node_name <$> names = ["rabbits_0"; "foxes_0"; "rabbits_0"; "foxes_0"]).
Proof.
  intros Ht. rewrite covariate_observer_names by done.
  eexists. split; [reflexivity|]. split; [split|].
  - intros Hnodup. destruct (decide (time intervention = 0)) as [H0|]; [|lia].
    exfalso. rewrite H0 in Hnodup. revert Hnodup. by_evaluation.
  - intros H1.
    apply NoDup_fmap_2_strong.
    + intros n m Hn Hm. apply node_name_inj.
      * list_cases Hn; cbn; first [apply rabbits_field | apply foxes_field].
      * list_cases Hm; cbn; first [apply rabbits_field | apply foxes_field].
    + assert (Hne : Z.to_nat (Z.max (time intervention - 1) 0)
                    <> Z.to_nat (time intervention)) by lia.
      repeat (apply NoDup_cons; split;
              [let Hin := fresh "Hin" in
               intros Hin;
               repeat (apply elem_of_cons in Hin as [Hin|Hin];
                       [congruence|]);
               by apply elem_of_nil in Hin|]).
      apply NoDup_nil_2.
  - intros H0. rewrite H0. reflexivity.
Qed.

Lemma covariate_names_distinct_iff_witness :
  exists names : list node,
    covariate_observer (named_run 6) (mkIntervention 3 []) = Some names /\
    (NoDup (node_name <$> names) <-> 1 <= 3) /\
    (3 = 0 ->
       node_name <$> names = ["rabbits_0"; "foxes_0"; "rabbits_0"; "foxes_0"]).
Proof.
  apply (covariate_names_distinct_iff 6 (mkIntervention 3 [])).
  cbn. lia.
Defined.
